(** * Verification model of the test-splitter client (lox/test-engine-client)

    Shallow embedding of the plan-acquisition flow
    ([fetchOrCreateTestPlan], [createRequestParam] of the latest [main]),
    of the retrying plan request in [internal/api/fetch_plan.go], of the
    orchestrator [main] with its retry loop [retryFailedTests], and of the
    runner command templating exercised by the Jest runner tests.

    Go values are modelled as follows: [int] as [Z]; [string] as
    [string]; slices as lists; Go maps as stdpp [gmap] (a lookup of a
    missing key yields the zero value, written [default]); [error] as
    the inductive [error] below, with [errors.Is] following [%w] wraps;
    a [(T, error)] pair as [result T]. *)

From Stdlib Require Import ZArith List String Ascii Lia.
From stdpp Require Import base gmap strings list fin_maps pretty.
Import ListNotations.
Open Scope string_scope.

(* ------------------------------------------------------------------ *)
(** ** Errors *)

(** Sentinel errors of the code: [api.ErrRetryTimeout] (checked by
    [fetchOrCreateTestPlan]), [api.ErrRetryLimitExceeded] and
    [errInvalidRequest] of [fetch_plan.go], and [context.DeadlineExceeded]
    returned by a cancelled context. *)
Inductive sentinel :=
| ErrRetryTimeout
| ErrRetryLimitExceeded
| ErrInvalidRequest
| DeadlineExceeded.

#[global] Instance sentinel_eq_dec : EqDecision sentinel.
Proof. solve_decision. Defined.

(** A Go error value: a sentinel, a plain message ([errors.New] or
    [fmt.Errorf] without [%w]), a message wrapping one error ([%w]) or
    two errors ([%w: %w]). *)
Inductive error :=
| ESentinel (s : sentinel)
| EText (msg : string)
| EWrap (msg : string) (e : error)
| EWrap2 (e1 e2 : error).

(** [errors.Is err target] for a sentinel target. *)
Fixpoint errors_Is (e : error) (s : sentinel) : bool :=
  match e with
  | ESentinel s' => bool_decide (s' = s)
  | EText _ => false
  | EWrap _ e' => errors_Is e' s
  | EWrap2 e1 e2 => errors_Is e1 s || errors_Is e2 s
  end.

(** A Go [(T, error)] result. *)
Inductive result (A : Type) :=
| Ok (a : A)
| Err (e : error).
Arguments Ok {A} a.
Arguments Err {A} e.

(* ------------------------------------------------------------------ *)
(** ** Data model (package [plan]) *)

Record TestCase := {
  Path : string;
  Name : string;
}.

Record Task := {
  NodeNumber : Z;
  Tests : list TestCase;
}.

(** Modelled from the spec: [plan.Task] and [plan.TestPlan] (package
    [plan], absent from the sources), as Section 3 describes them. *)

(** The zero value of [Task]. *)
Definition zeroTask : Task := {| NodeNumber := 0; Tests := [] |}.

(** [TestPlan.Tasks] is a Go map from the worker index, as a decimal
    string, to its [Task], modelled as a map holding [Task] values. *)
Record TestPlan := {
  Tasks : gmap string Task;
}.

(** [strconv.Itoa]. *)
Definition Itoa (i : Z) : string := pretty i.

(** Request body of a plan creation ([api.TestPlanParams]). *)
Record TestPlanParams := {
  Mode : string;
  Identifier : string;
  Parallelism : Z;
  TestFiles : list TestCase;
  TestExamples : list TestCase;
}.

(** The fields of [config.Config] that the modelled code reads. *)
Record Config := {
  cfgSuiteSlug : string;
  cfgIdentifier : string;
  cfgMode : string;
  cfgParallelism : Z;
  cfgNodeIndex : Z;
  cfgMaxRetries : Z;
  cfgSplitByExample : bool;
  cfgSlowFileThreshold : Z;
}.

(* ------------------------------------------------------------------ *)
(** ** Fallback planner *)

(** Modelled from the spec: [plan.CreateFallbackPlan] (package [plan],
    absent from the sources). Section 4.2: the files, in discovery order,
    are partitioned round-robin into [parallelism] buckets; bucket [i]
    becomes the task of worker index string [i]. [fallback_bucket_go fs j n i]
    collects the files of [fs], whose first element has position [j],
    whose position is [i] modulo [n]. *)
Fixpoint fallback_bucket_go (fs : list string) (j n i : nat) : list string :=
  match fs with
  | [] => []
  | f :: fs' =>
      (if Nat.eqb (j mod n) i then [f] else []) ++ fallback_bucket_go fs' (S j) n i
  end.

Definition fallback_bucket (files : list string) (n i : nat) : list string :=
  fallback_bucket_go files 0 n i.

Definition fallback_task (files : list string) (n i : nat) : Task :=
  {| NodeNumber := Z.of_nat i;
     Tests := map (fun f => {| Path := f; Name := EmptyString |}) (fallback_bucket files n i) |}.

Definition CreateFallbackPlan (files : list string) (parallelism : Z) : TestPlan :=
  let n := Z.to_nat parallelism in
  {| Tasks := list_to_map
       ((fun i => (Itoa (Z.of_nat i), fallback_task files n i)) <$> seq 0 n) |}.

(** The test paths of worker [i] in plan [p], as [main] reads them:
    [testPlan.Tasks[strconv.Itoa(i)]], then the [Path] of each test. A
    missing key reads here as the zero [Task] of a value-typed map. *)
Definition node_tests (p : TestPlan) (i : Z) : list string :=
  map Path (Tests (default zeroTask (Tasks p !! Itoa i))).

(* ------------------------------------------------------------------ *)
(** ** The API client and the test runner, as [fetchOrCreateTestPlan]
    uses them *)

(** The three client calls made during plan acquisition; each is one
    logical (retried) request whose outcome is an input of the model.
    [FetchTestPlan] returns [None] when the server has no cached plan. *)
Record Client := {
  FetchTestPlan : string -> string -> result (option TestPlan);
  CreateTestPlan : string -> TestPlanParams -> result TestPlan;
  FetchFilesTiming : string -> list string -> result (gmap string Z);
}.

(** [TestRunner.GetExamples]. *)
Definition GetExamplesFn := list string -> result (list TestCase).

Definition file_case (f : string) : TestCase := {| Path := f; Name := EmptyString |}.

(** [createRequestParam]. Durations are [time.Duration] values (Z). *)
Definition createRequestParam (cfg : Config) (files : list string)
    (client : Client) (getExamples : GetExamplesFn) : result TestPlanParams :=
  if negb (cfgSplitByExample cfg) then
    Ok {| Mode := cfgMode cfg; Identifier := cfgIdentifier cfg;
          Parallelism := cfgParallelism cfg;
          TestFiles := map file_case files; TestExamples := [] |}
  else
    match FetchFilesTiming client (cfgSuiteSlug cfg) files with
    | Err e => Err (EWrap "failed to fetch file timings" e)
    | Ok timings =>
        let allFilesTiming :=
          map (fun f => (f, default 0%Z (timings !! f))) files in
        let slowFiles :=
          map fst (filter (fun t => bool_decide (cfgSlowFileThreshold cfg <= snd t)%Z)
                     allFilesTiming) in
        let restOfFiles :=
          map (fun t => file_case (fst t))
            (filter (fun t => bool_decide (snd t < cfgSlowFileThreshold cfg)%Z)
               allFilesTiming) in
        match slowFiles with
        | [] =>
            Ok {| Mode := cfgMode cfg; Identifier := cfgIdentifier cfg;
                  Parallelism := cfgParallelism cfg;
                  TestFiles := restOfFiles; TestExamples := [] |}
        | _ :: _ =>
            match getExamples slowFiles with
            | Err e => Err (EWrap "failed to get examples for slow files" e)
            | Ok slowFilesExamples =>
                Ok {| Mode := cfgMode cfg; Identifier := cfgIdentifier cfg;
                      Parallelism := cfgParallelism cfg;
                      TestFiles := restOfFiles; TestExamples := slowFilesExamples |}
            end
        end
    end.

(** [fetchOrCreateTestPlan] of the latest [main] (with its closure
    [handleError]). *)
Definition fetchOrCreateTestPlan (client : Client) (cfg : Config)
    (files : list string) (getExamples : GetExamplesFn) : result TestPlan :=
  let handleError (e : error) : result TestPlan :=
    if errors_Is e ErrRetryTimeout
    then Ok (CreateFallbackPlan files (cfgParallelism cfg))
    else Err e in
  match FetchTestPlan client (cfgSuiteSlug cfg) (cfgIdentifier cfg) with
  | Err e => handleError e
  | Ok (Some cachedPlan) =>
      if bool_decide (size (Tasks cachedPlan) = 0)
      then Ok (CreateFallbackPlan files (cfgParallelism cfg))
      else Ok cachedPlan
  | Ok None =>
      match createRequestParam cfg files client getExamples with
      | Err e => handleError e
      | Ok params =>
          match CreateTestPlan client (cfgSuiteSlug cfg) params with
          | Err e => handleError e
          | Ok testPlan =>
              if bool_decide (size (Tasks testPlan) = 0)
              then Ok (CreateFallbackPlan files (cfgParallelism cfg))
              else Ok testPlan
          end
      end
  end.

(* ------------------------------------------------------------------ *)
(** ** The retrier ([github.com/buildkite/roko])

    [roko.DoFunc] as used by [FetchTestPlan]: before each attempt the
    callback runs (it may call [r.Break()]); a success returns at once;
    a failure is counted ([MarkAttempt]); the retrier gives up when the
    callback broke or [attemptCount >= maxAttempts]; otherwise it sleeps
    the back-off interval, returning [ctx.Err()] when the context is
    done during that sleep. Back-off lengths and jitter only decide
    *when* the context expires, so the model takes that as an input:
    [ctxDone k] tells whether the context is done while sleeping after
    the [k]-th failed attempt. *)
Record roko_outcome (A : Type) := {
  r_res : result A;
  r_calls : nat;       (** callback invocations, i.e. network attempts *)
  r_attempts : nat;    (** [r.AttemptCount()] *)
}.
Arguments r_res {A}.
Arguments r_calls {A}.
Arguments r_attempts {A}.

Section Roko.
  Context {A : Type}.
Variable maxAttempts : nat.
Variable ctxDone : nat -> bool.
  (** The callback at attempt [k] (from 1): its result, and whether it
      called [r.Break()]. *)
Variable callback : nat -> result A * bool.

Fixpoint roko_loop (fuel attempts : nat) : roko_outcome A :=
    match fuel with
    | O => {| r_res := Err (EText "retrier stopped"); r_calls := attempts;
              r_attempts := attempts |}
    | S fuel' =>
        let '(res, brk) := callback (S attempts) in
        match res with
        | Ok a => {| r_res := Ok a; r_calls := S attempts; r_attempts := attempts |}
        | Err e =>
            if brk || Nat.leb maxAttempts (S attempts) then
              {| r_res := Err e; r_calls := S attempts; r_attempts := S attempts |}
            else if ctxDone (S attempts) then
              {| r_res := Err (ESentinel DeadlineExceeded); r_calls := S attempts;
                 r_attempts := S attempts |}
            else roko_loop fuel' (S attempts)
        end
    end.

  (** The loop gives up by [maxAttempts] (or after one attempt when it
      is 0), so [S maxAttempts] rounds of fuel are never exhausted. *)
Definition roko_DoFunc : roko_outcome A := roko_loop (S maxAttempts) 0.
End Roko.

(* ------------------------------------------------------------------ *)
(** ** [internal/api/fetch_plan.go] *)

(** The response body as [io.ReadAll] and [json.Unmarshal] see it. *)
Inductive body :=
| BodyReadError
| BodyUnparsable
| BodyPlan (p : TestPlan).

(** What one HTTP attempt yields: a transport failure of [client.Do]
    (connection refused, per-request timeout, ...) or a response. *)
Inductive http_response :=
| ConnError
| Response (status : Z) (b : body).

Definition read_plan (b : body) : result TestPlan :=
  match b with
  | BodyReadError => Err (EWrap "reading response body" (EText "read error"))
  | BodyUnparsable => Err (EWrap "parsing response" (EText "invalid JSON"))
  | BodyPlan p => Ok p
  end.

(** [tryFetchTestPlan]: one attempt. [json.Marshal] of the parameters
    cannot fail on [TestPlanParams] and is omitted. A status outside
    200, 4xx and 5xx falls through the [switch] to the body parsing. *)
Definition tryFetchTestPlan (r : http_response) : result TestPlan :=
  match r with
  | ConnError => Err (EWrap "sending request" (EText "transport error"))
  | Response status b =>
      if Z.eqb status 200 then read_plan b
      else if ((400 <=? status) && (status <? 500))%Z then
        Err (EWrap "server response" (ESentinel ErrInvalidRequest))
      else if ((500 <=? status) && (status <? 600))%Z then
        Err (EText "server response")
      else read_plan b
  end.

Definition retryMaxAttempts : nat := 5.

(** The callback passed to [roko.DoFunc]: break on an invalid request. *)
Definition fetch_callback (responses : nat -> http_response) (k : nat)
    : result TestPlan * bool :=
  let tp := tryFetchTestPlan (responses k) in
  (tp, match tp with Err e => errors_Is e ErrInvalidRequest | Ok _ => false end).

(** [FetchTestPlan], with the network attempts it made. *)
Definition FetchTestPlan_api (ctxDone : nat -> bool) (responses : nat -> http_response)
    : result TestPlan * nat :=
  let o := roko_DoFunc retryMaxAttempts ctxDone (fetch_callback responses) in
  match r_res o with
  | Err e =>
      if Nat.eqb (r_attempts o) retryMaxAttempts
      then (Err (EWrap2 (ESentinel ErrRetryLimitExceeded) e), r_calls o)
      else (Err e, r_calls o)
  | Ok p => (Ok p, r_calls o)
  end.

(* ------------------------------------------------------------------ *)
(** ** The [api.Client] requests used by [fetchOrCreateTestPlan] *)

(** Modelled from the spec: the retrying request of [api.Client] behind
    its [FetchTestPlan], [CreateTestPlan] and [FetchFilesTiming] methods
    (absent from the sources; only their caller [fetchOrCreateTestPlan]
    and the older [fetch_plan.go] are present). Section 4.1: the retry
    policy of [fetch_plan.go] (attempt ceiling 5, [r.Break()] on the
    invalid-request condition), and "if attempts are exhausted, or the
    phase's outer deadline elapses first, the failure is classified as a
    retry-timeout condition"; any other error is returned as it is.
    [attempt k] is the classified outcome of the [k]-th network attempt. *)
Definition client_call {A : Type} (ctxDone : nat -> bool) (attempt : nat -> result A)
    : result A * nat :=
  let o := roko_DoFunc retryMaxAttempts ctxDone
             (fun k => let r := attempt k in
                       (r, match r with Err e => errors_Is e ErrInvalidRequest
                                   | Ok _ => false end)) in
  match r_res o with
  | Ok a => (Ok a, r_calls o)
  | Err e =>
      if Nat.eqb (r_attempts o) retryMaxAttempts || errors_Is e DeadlineExceeded
      then (Err (EWrap2 (ESentinel ErrRetryTimeout) e), r_calls o)
      else (Err e, r_calls o)
  end.

(** A client whose three requests go through [client_call]; each
    request has its own attempt outcomes and deadline. The plan-create
    attempts are classified by [tryFetchTestPlan] (same endpoint). *)
Definition retrying_client
    (fetchDone : nat -> bool) (fetchAttempts : nat -> result (option TestPlan))
    (createDone : nat -> bool) (createResponses : nat -> http_response)
    (timingDone : nat -> bool) (timingAttempts : nat -> result (gmap string Z))
    : Client :=
  {| FetchTestPlan := fun _ _ => fst (client_call fetchDone fetchAttempts);
     CreateTestPlan := fun _ _ =>
       fst (client_call createDone (fun k => tryFetchTestPlan (createResponses k)));
     FetchFilesTiming := fun _ _ => fst (client_call timingDone timingAttempts) |}.

(* ------------------------------------------------------------------ *)
(** ** The orchestrator [main] and [retryFailedTests]

    [main] is modelled as a computation in a small output-and-exit monad:
    it appends observable events to a trace, and [os.Exit] ends it.
    Timestamps of timeline entries are not modelled (only event labels);
    the signal-forwarding goroutine is not modelled. *)

Inductive event :=
| EvPrint (msg : string)            (** [fmt.Println] / [fmt.Printf] *)
| EvGetFiles                        (** [testRunner.GetFiles()] *)
| EvFetchPlan                       (** plan acquisition (network) *)
| EvCommand (tests : list string)   (** [testRunner.Command(tests)] *)
| EvRetryCommand                    (** [testRunner.RetryCommand()] *)
| EvStart                           (** [cmd.Start()]: a process spawns *)
| EvSendMetadata (timeline : list string)  (** [sendMetadata] *)
| EvExit (code : Z).                (** [os.Exit(code)] *)

Inductive outcome (A : Type) :=
| Running (a : A) (tr : list event)
| Exited (tr : list event).
Arguments Running {A} a tr.
Arguments Exited {A} tr.

Definition M (A : Type) := list event -> outcome A.

Definition ret {A : Type} (a : A) : M A := fun tr => Running a tr.

Definition bindM {A B : Type} (m : M A) (k : A -> M B) : M B :=
  fun tr => match m tr with
            | Running a tr' => k a tr'
            | Exited tr' => Exited tr'
            end.

Notation "'let*' x ':=' m 'in' k" := (bindM m (fun x => k))
  (at level 200, x name, m at level 100, k at level 200).
Notation "m ;; k" := (bindM m (fun _ => k)) (at level 100, right associativity).

Definition emit (ev : event) : M unit := fun tr => Running tt (app tr [ev]).

Definition os_Exit {A : Type} (code : Z) : M A := fun tr => Exited (app tr [EvExit code]).

(** [logErrorAndExit]: print the message, then exit. *)
Definition logErrorAndExit {A : Type} (code : Z) (msg : string) : M A :=
  emit (EvPrint msg) ;; os_Exit code.

(** [sendMetadata]: a failure to send is only printed. *)
Definition sendMetadata (timeline : list string) : M unit :=
  emit (EvSendMetadata timeline).

(** Outcome of [cmd.Wait()]: success, an [*exec.ExitError] whose
    [ExitCode()] is [code], or another error. *)
Inductive wait_outcome :=
| WaitOk
| WaitExitError (code : Z)
| WaitOtherError.

(** What [main] receives from its collaborators: configuration, the
    command line, the runner and the processes it starts. Retry attempts
    are numbered from 1. *)
Record Env := {
  envConfig : result Config;                    (** [config.New()] *)
  envVersionFlag : bool;                        (** [--version] given *)
  envVersion : string;                          (** [Version] *)
  envFiles : result (list string);              (** [testRunner.GetFiles()] *)
  envClient : Client;
  envGetExamples : GetExamplesFn;
  envCommand : list string -> result (string * list string);  (** [testRunner.Command] *)
  envStart : bool;                              (** primary [cmd.Start()] succeeds *)
  envWait : wait_outcome;                       (** primary [cmd.Wait()] *)
  envRetryCommand : Z -> result (string * list string);  (** [testRunner.RetryCommand()] *)
  envRetryStart : Z -> bool;
  envRetryWait : Z -> wait_outcome;
}.

Definition retry_label (k : Z) (suffix : string) : string :=
  "retry_" ++ Itoa k ++ suffix.

(** The [for retries < maxRetries] loop of [retryFailedTests]; [fuel]
    bounds its iterations by [maxRetries]. Returns the exit code and the
    timeline (passed by pointer in the source). *)
Fixpoint retryLoop (env : Env) (maxRetries : Z) (fuel : nat) (retries : Z)
    (timeline : list string) : M (Z * list string) :=
  match fuel with
  | O => ret (1%Z, timeline)
  | S fuel' =>
      if (retries <? maxRetries)%Z then
        let retries := (retries + 1)%Z in
        emit (EvPrint "Attempt %d of %d to retry failing tests") ;;
        emit EvRetryCommand ;;
        match envRetryCommand env retries with
        | Err _ => logErrorAndExit 16 "Couldn't process retry command: %v"
        | Ok _ =>
            let timeline := app timeline [retry_label retries "_start"] in
            if negb (envRetryStart env retries)
            then logErrorAndExit 16 "Couldn't start tests: %v"
            else
              emit EvStart ;;
              let w := envRetryWait env retries in
              let timeline := app timeline [retry_label retries "_end"] in
              match w with
              | WaitOk => ret (0%Z, timeline)
              | WaitExitError exitCode =>
                  if (maxRetries <=? retries)%Z then ret (exitCode, timeline)
                  else retryLoop env maxRetries fuel' retries timeline
              | WaitOtherError => retryLoop env maxRetries fuel' retries timeline
              end
        end
      else ret (1%Z, timeline)
  end.

Definition retryFailedTests (env : Env) (maxRetries : Z) (timeline : list string)
    : M (Z * list string) :=
  retryLoop env maxRetries (Z.to_nat maxRetries) 0 timeline.

(** [main] from [err = cmd.Wait()] of the primary run to its end. *)
Definition superviseWait (env : Env) (cfg : Config) (timeline : list string) : M unit :=
  let timeline := app timeline ["test_end"] in
  match envWait env with
  | WaitOk => sendMetadata timeline ;; os_Exit 0
  | WaitExitError exitCode =>
      if (cfgMaxRetries cfg =? 0)%Z then
        sendMetadata timeline ;;
        logErrorAndExit exitCode "Rspec exited with error %v"
      else
        let* r := retryFailedTests env (cfgMaxRetries cfg) timeline in
        let '(retryExitCode, timeline) := r in
        if negb (retryExitCode =? 0)%Z then
          sendMetadata timeline ;;
          logErrorAndExit retryExitCode "Rspec exited with error %v after retry failing tests"
        else sendMetadata timeline ;; os_Exit 0
  | WaitOtherError => logErrorAndExit 16 "Couldn't run tests: %v"
  end.

(** [main]; returning from it exits with code 0. The exits of
    [flag.Parse] (an undefined flag exits 2, [-h] exits 0 after the
    usage text), which runs after the configuration is read and before
    the version flag is tested, are not modelled: the model takes the
    flags as parsed. Such an exit sends no metadata and runs no test. *)
Definition main (env : Env) : M unit :=
  let* cfg := match envConfig env with
              | Err _ => logErrorAndExit 16 "Invalid configuration: %v"
              | Ok c => ret c
              end in
  if envVersionFlag env then emit (EvPrint (envVersion env)) ;; os_Exit 0
  else
    emit EvGetFiles ;;
    let* files := match envFiles env with
                  | Err _ => logErrorAndExit 16 "Couldn't get files: %v"
                  | Ok f => ret f
                  end in
    emit EvFetchPlan ;;
    let* testPlan :=
      match fetchOrCreateTestPlan (envClient env) cfg files (envGetExamples env) with
      | Err _ => logErrorAndExit 16 "Couldn't fetch or create test plan: %v"
      | Ok p => ret p
      end in
    let runnableTests := node_tests testPlan (cfgNodeIndex cfg) in
    emit (EvCommand runnableTests) ;;
    let* _ := match envCommand env runnableTests with
              | Err _ => logErrorAndExit 16 "Couldn't process test command: %q, %v"
              | Ok c => ret c
              end in
    let timeline := ["test_start"] in
    if negb (envStart env) then logErrorAndExit 16 "Couldn't start tests: %v"
    else emit EvStart ;; superviseWait env cfg timeline.

(** The trace of an outcome, whether the program is still running or
    has exited. *)
Definition out_trace {A : Type} (o : outcome A) : list event :=
  match o with
  | Running _ tr => tr
  | Exited tr => tr
  end.

(** The observable trace of a run of the program. *)
Definition run_main (env : Env) : list event := out_trace (main env []).

(** A computation that only appends to the trace. *)
Definition extends {A : Type} (m : M A) : Prop :=
  forall tr, exists rest, out_trace (m tr) = app tr rest.

(** The collaborators let [main] reach [cmd.Wait()] of the primary run:
    valid configuration, no [--version], files found, plan [p] acquired,
    test command built and started. *)
Definition reaches_wait (env : Env) (cfg : Config) (p : TestPlan) : Prop :=
  envConfig env = Ok cfg /\ envVersionFlag env = false
  /\ (exists files, envFiles env = Ok files
        /\ fetchOrCreateTestPlan (envClient env) cfg files (envGetExamples env) = Ok p)
  /\ (exists c, envCommand env (node_tests p (cfgNodeIndex cfg)) = Ok c)
  /\ envStart env = true.

(** The trace of [main] up to the start of the primary run. *)
Definition primary_prefix (tests : list string) : list event :=
  [EvGetFiles; EvFetchPlan; EvCommand tests; EvStart].

(* ------------------------------------------------------------------ *)
(** ** Command templates (package [runner])

    The runner package is absent from the sources; only the Jest runner
    tests are present. The definitions of this section are modelled from
    the spec (section 4.3) and agree with those tests (see the examples
    among the lemmas below). *)

Definition chr_dquote : ascii := ascii_of_nat 34.
Definition chr_newline : ascii := ascii_of_nat 10.
Definition chr_tab : ascii := ascii_of_nat 9.

Definition is_split_char (c : ascii) : bool :=
  Ascii.eqb c " "%char || Ascii.eqb c chr_newline || Ascii.eqb c chr_tab.

(** Characters a backslash escapes inside double quotes. *)
Definition is_double_escape_char (c : ascii) : bool :=
  Ascii.eqb c "$"%char || Ascii.eqb c "`"%char || Ascii.eqb c chr_dquote
  || Ascii.eqb c chr_newline || Ascii.eqb c "\"%char.

Inductive sq_mode := SQPlain | SQEscape | SQSingle | SQDouble | SQDoubleEscape.

Definition word_of (cur : option (list ascii)) : list ascii := default [] cur.

Definition push_word (cur : option (list ascii)) (acc : list string) : list string :=
  match cur with
  | None => acc
  | Some w => app acc [string_of_list_ascii w]
  end.

(** Modelled from the spec: [shellquote.Split] (POSIX shell word
    splitting: blanks separate words; single quotes, double quotes and
    backslash escapes; an unterminated quote or escape is an error).
    [cur] is the word being read ([None] between words). A backslash
    and the character it escapes belong to the word being read; an
    escaped newline is a line continuation and adds nothing, not even
    an empty word. *)
Fixpoint sq_go (cs : list ascii) (m : sq_mode) (cur : option (list ascii))
    (acc : list string) : result (list string) :=
  match cs, m with
  | [], SQPlain => Ok (push_word cur acc)
  | [], SQEscape => Err (EText "Unterminated backslash-escape")
  | [], SQSingle => Err (EText "Unterminated single-quoted string")
  | [], _ => Err (EText "Unterminated double-quoted string")
  | c :: cs', SQPlain =>
      if is_split_char c then sq_go cs' SQPlain None (push_word cur acc)
      else if Ascii.eqb c "\"%char then sq_go cs' SQEscape cur acc
      else if Ascii.eqb c "'"%char then sq_go cs' SQSingle (Some (word_of cur)) acc
      else if Ascii.eqb c chr_dquote then sq_go cs' SQDouble (Some (word_of cur)) acc
      else sq_go cs' SQPlain (Some (app (word_of cur) [c])) acc
  | c :: cs', SQEscape =>
      if Ascii.eqb c chr_newline then sq_go cs' SQPlain cur acc
      else sq_go cs' SQPlain (Some (app (word_of cur) [c])) acc
  | c :: cs', SQSingle =>
      if Ascii.eqb c "'"%char then sq_go cs' SQPlain cur acc
      else sq_go cs' SQSingle (Some (app (word_of cur) [c])) acc
  | c :: cs', SQDouble =>
      if Ascii.eqb c chr_dquote then sq_go cs' SQPlain cur acc
      else if Ascii.eqb c "\"%char then sq_go cs' SQDoubleEscape cur acc
      else sq_go cs' SQDouble (Some (app (word_of cur) [c])) acc
  | c :: cs', SQDoubleEscape =>
      if Ascii.eqb c chr_newline then sq_go cs' SQDouble cur acc
      else if is_double_escape_char c
      then sq_go cs' SQDouble (Some (app (word_of cur) [c])) acc
      else sq_go cs' SQDouble (Some (app (word_of cur) ["\"%char; c])) acc
  end.

Definition shellquote_Split (s : string) : result (list string) :=
  sq_go (list_ascii_of_string s) SQPlain None [].


Definition name_and_args (words : list string) : result (string * list string) :=
  match words with
  | [] => Err (EText "empty command")
  | w :: ws => Ok (w, ws)
  end.

(** [strings.Contains]. *)
Fixpoint str_contains (pat s : string) : bool :=
  String.prefix pat s ||
  match s with
  | EmptyString => false
  | String _ s' => str_contains pat s'
  end.

(** [strings.ReplaceAll] for a non-empty [pat]; [skip] counts the
    characters of a replaced occurrence still to be dropped. *)
Fixpoint str_replace_go (pat rep s : string) (skip : nat) : string :=
  match s with
  | EmptyString => EmptyString
  | String c s' =>
      match skip with
      | S k => str_replace_go pat rep s' k
      | O => if String.prefix pat s
             then rep ++ str_replace_go pat rep s' (String.length pat - 1)
             else String c (str_replace_go pat rep s' 0)
      end
  end.

Definition str_replace (pat rep s : string) : string := str_replace_go pat rep s 0.


(** The alternation pattern of the failed test identifiers. *)
Definition testNamePattern (testCases : list string) : string :=
  "(" ++ String.concat "|" testCases ++ ")".

Definition retrySentinelError : string :=
  "couldn't find '{{testNamePattern}}' sentinel in retry command".

(** Modelled from the spec: [retryCommandNameAndArgs] of the runner. A
    template without [{{testNamePattern}}] is rejected with the error of
    the Jest runner test; otherwise the placeholder is replaced by
    [testNamePattern] of the identifiers, verbatim, [{{outputFile}}] by
    the result path, and the string is split under shell quoting. *)
Definition retryCommandNameAndArgs (resultPath cmd : string) (testCases : list string)
    : result (string * list string) :=
  if negb (str_contains "{{testNamePattern}}" cmd) then Err (EText retrySentinelError)
  else
    let cmd := str_replace "{{testNamePattern}}" (testNamePattern testCases) cmd in
    let cmd := str_replace "{{outputFile}}" resultPath cmd in
    match shellquote_Split cmd with
    | Err e => Err e
    | Ok words => name_and_args words
    end.

(* ------------------------------------------------------------------ *)
(** ** [fetchOrCreateTestPlan] of the earlier [main] (src/unnamed/part_001)

    In that version [plan.CreateFallbackPlan] takes the test cases; it is
    a parameter here. The cache fetch takes no context and its error is
    returned as it is; only a creation error that [errors.Is]
    [context.DeadlineExceeded] falls back. *)
Definition fetchOrCreateTestPlan_v1 (createFallbackPlan : list TestCase -> Z -> TestPlan)
    (client : Client) (cfg : Config) (files : list string) : result TestPlan :=
  match FetchTestPlan client (cfgSuiteSlug cfg) (cfgIdentifier cfg) with
  | Err e => Err e
  | Ok (Some cachedPlan) => Ok cachedPlan
  | Ok None =>
      let testCases := map file_case files in
      let created :=
        match CreateTestPlan client (cfgSuiteSlug cfg)
                {| Mode := cfgMode cfg; Identifier := cfgIdentifier cfg;
                   Parallelism := cfgParallelism cfg;
                   TestFiles := testCases; TestExamples := [] |} with
        | Err e =>
            if negb (errors_Is e DeadlineExceeded) then Err e
            else Ok (createFallbackPlan testCases (cfgParallelism cfg))
        | Ok tp => Ok tp
        end in
      match created with
      | Err e => Err e
      | Ok testPlan =>
          if bool_decide (size (Tasks testPlan) = 0)
          then Ok (createFallbackPlan testCases (cfgParallelism cfg))
          else Ok testPlan
      end
  end.

(* ------------------------------------------------------------------ *)
(** ** Counting events of a trace *)

Fixpoint count_events (P : event -> bool) (tr : list event) : nat :=
  match tr with
  | [] => 0
  | ev :: tr' => (if P ev then 1 else 0) + count_events P tr'
  end.

Definition is_send_metadata (ev : event) : bool :=
  match ev with EvSendMetadata _ => true | _ => false end.

Definition is_retry_command (ev : event) : bool :=
  match ev with EvRetryCommand => true | _ => false end.

(** The timeline entries of the retries [r + 1], ..., [r + n]. *)
Definition retry_marks (r : Z) (n : nat) : list string :=
  concat (map (fun i => [retry_label (r + Z.of_nat i + 1) "_start";
                         retry_label (r + Z.of_nat i + 1) "_end"]) (seq 0 n)).

(* ------------------------------------------------------------------ *)
(** ** Sample inputs, used to run the model on concrete values *)

Definition sample_cfg : Config :=
  {| cfgSuiteSlug := "suite"; cfgIdentifier := "build-1"; cfgMode := "static";
     cfgParallelism := 2; cfgNodeIndex := 0; cfgMaxRetries := 2;
     cfgSplitByExample := false; cfgSlowFileThreshold := 180000000000 |}.

Definition sample_files : list string := ["a.spec"; "b c.spec"; "d.spec"].

(** The "error" plan [{"tasks": {}}]. *)
Definition sentinel_plan : TestPlan := {| Tasks := ∅ |}.

(** A client whose plan fetch and plan creation have fixed outcomes. *)
Definition const_client (fetched : result (option TestPlan)) (created : result TestPlan)
    : Client :=
  {| FetchTestPlan := fun _ _ => fetched;
     CreateTestPlan := fun _ _ => created;
     FetchFilesTiming := fun _ _ => Ok ∅ |}.

Definition no_examples : GetExamplesFn := fun _ => Ok [].

Definition sample_cfg_retries (maxRetries : Z) : Config :=
  {| cfgSuiteSlug := "suite"; cfgIdentifier := "build-1"; cfgMode := "static";
     cfgParallelism := 2; cfgNodeIndex := 0; cfgMaxRetries := maxRetries;
     cfgSplitByExample := false; cfgSlowFileThreshold := 180000000000 |}.

(** An environment whose server has a cached plan, the fallback plan of
    [sample_files] over 2 nodes, and whose test command and starts
    succeed; the primary and retry outcomes are given. *)
Definition sample_env (cfg : result Config) (versionFlag : bool) (wait : wait_outcome)
    (retryCommand : Z -> result (string * list string)) (retryWait : Z -> wait_outcome)
    : Env :=
  {| envConfig := cfg; envVersionFlag := versionFlag; envVersion := "v0.5.0";
     envFiles := Ok sample_files;
     envClient := const_client (Ok (Some (CreateFallbackPlan sample_files 2)))
                    (Ok sentinel_plan);
     envGetExamples := no_examples;
     envCommand := fun tests => Ok ("rspec", tests);
     envStart := true; envWait := wait;
     envRetryCommand := retryCommand;
     envRetryStart := fun _ => true;
     envRetryWait := retryWait |}.

Definition ok_retry_command : Z -> result (string * list string) :=
  fun _ => Ok ("rspec", ["--only-failures"]).

(** A split-by-example configuration with a 100 ns slow-file threshold,
    and a server that knows the timings of two of [sample_files]. *)
Definition split_cfg : Config :=
  {| cfgSuiteSlug := "suite"; cfgIdentifier := "build-1"; cfgMode := "static";
     cfgParallelism := 2; cfgNodeIndex := 0; cfgMaxRetries := 2;
     cfgSplitByExample := true; cfgSlowFileThreshold := 100 |}.

Definition sample_timings : gmap string Z := <["a.spec" := 150%Z]> (<["d.spec" := 20%Z]> ∅).

Definition timing_client (fetched : result (option TestPlan)) (created : result TestPlan)
    (timings : result (gmap string Z)) : Client :=
  {| FetchTestPlan := fun _ _ => fetched;
     CreateTestPlan := fun _ _ => created;
     FetchFilesTiming := fun _ _ => timings |}.

(** A runner that reports one example per slow file. *)
Definition one_example_each : GetExamplesFn :=
  fun fs => Ok (map (fun f => {| Path := f; Name := "example 1" |}) fs).

(* ================================================================== *)
(** * Proofs *)

Open Scope list_scope.

(* ------------------------------------------------------------------ *)
(** ** Fallback planner *)

Section FallbackBuckets.
Variable n : nat.
Hypothesis Hn : 0 < n.

Lemma fallback_bucket_go_sublist (fs : list string) (j i : nat) :
    fallback_bucket_go fs j n i `sublist_of` fs.
  Proof.
    revert j; induction fs as [|f fs IH]; intros j; simpl; [constructor|].
    destruct (Nat.eqb (j mod n) i); simpl.
    - apply sublist_skip, IH.
    - apply sublist_cons, IH.
  Qed.

  (** The singleton bucket of the file at position [j] sits at index
      [j mod n] among the [n] buckets. *)
Lemma concat_indicator (x : nat) (f : string) (s k : nat) :
    concat (map (fun i => if Nat.eqb x i then [f] else []) (seq s k))
    = if Nat.leb s x && Nat.ltb x (s + k) then [f] else [].
  Proof.
    revert s; induction k as [|k IH]; intros s; simpl.
    - destruct (Nat.leb_spec s x), (Nat.ltb_spec x (s + 0)); simpl; auto; lia.
    - rewrite IH.
      destruct (Nat.eqb_spec x s) as [->|Hne].
      + destruct (Nat.leb_spec (S s) s), (Nat.leb_spec s s),
          (Nat.ltb_spec s (s + S k)); simpl; try lia; reflexivity.
      + destruct (Nat.leb_spec (S s) x), (Nat.leb_spec s x),
          (Nat.ltb_spec x (S s + k)), (Nat.ltb_spec x (s + S k));
          simpl; auto; lia.
  Qed.

Lemma concat_map_app_perm {B : Type} (g h : nat -> list B) (l : list nat) :
    concat (map (fun i => g i ++ h i) l) ≡ₚ concat (map g l) ++ concat (map h l).
  Proof.
    induction l as [|a l IH]; simpl; [done|].
    rewrite IH. rewrite <- !app_assoc. apply Permutation_app_head.
    rewrite !app_assoc. apply Permutation_app_tail. apply Permutation_app_comm.
  Qed.

Lemma concat_map_nil {B : Type} (l : list nat) :
    concat (map (fun _ : nat => @nil B) l) = [].
  Proof. induction l; simpl; auto. Qed.

Lemma fallback_bucket_go_perm (fs : list string) (j : nat) :
    fs ≡ₚ concat (map (fallback_bucket_go fs j n) (seq 0 n)).
  Proof.
    revert j; induction fs as [|f fs IH]; intros j.
    - simpl. rewrite (concat_map_nil (B:=string)). done.
    - change (map (fallback_bucket_go (f :: fs) j n) (seq 0 n))
        with (map (fun i => (if Nat.eqb (j mod n) i then [f] else [])
                            ++ fallback_bucket_go fs (S j) n i) (seq 0 n)).
      rewrite concat_map_app_perm, concat_indicator.
      pose proof (Nat.mod_upper_bound j n ltac:(lia)).
      destruct (Nat.leb_spec 0 (j mod n)), (Nat.ltb_spec (j mod n) (0 + n));
        try lia; simpl.
      constructor. apply IH.
  Qed.

Lemma fallback_bucket_go_length (fs : list string) (j i : nat) :
    length (fallback_bucket_go fs j n i)
    = length (List.filter (fun t => Nat.eqb (t mod n) i) (seq j (length fs))).
  Proof.
    revert j; induction fs as [|f fs IH]; intros j; simpl; [done|].
    destruct (Nat.eqb (j mod n) i); simpl; rewrite IH; done.
  Qed.

  (** Among positions [0 .. K-1], those equal to [i] modulo [n]. *)
Lemma count_residue (K i : nat) :
    i < n ->
    length (List.filter (fun t => Nat.eqb (t mod n) i) (seq 0 K))
    = K / n + (if Nat.ltb i (K mod n) then 1 else 0).
  Proof.
    intros Hi. induction K as [|K IH].
    - simpl. rewrite Nat.Div0.div_0_l, Nat.Div0.mod_0_l. simpl. lia.
    - rewrite seq_S, List.filter_app, length_app, IH. simpl.
      pose proof (Nat.div_mod_eq K n) as HK.
      pose proof (Nat.mod_upper_bound K n ltac:(lia)) as Hr.
      set (q := K / n) in *. set (r := K mod n) in *.
      destruct (Nat.ltb_spec (S r) n) as [Hlt|Hge].
      + assert (S K / n = q) as -> by (symmetry; apply (Nat.div_unique _ _ _ (S r)); lia).
        assert (S K mod n = S r) as -> by (symmetry; apply (Nat.mod_unique _ _ q); lia).
        destruct (Nat.ltb_spec i r), (Nat.eqb_spec r i), (Nat.ltb_spec i (S r));
          simpl; lia.
      + assert (S K / n = S q) as -> by (symmetry; apply (Nat.div_unique _ _ _ 0); lia).
        assert (S K mod n = 0) as -> by (symmetry; apply (Nat.mod_unique _ _ (S q)); lia).
        destruct (Nat.ltb_spec i r), (Nat.eqb_spec r i), (Nat.ltb_spec i 0);
          simpl; lia.
  Qed.

Lemma fallback_bucket_length (files : list string) (i : nat) :
    i < n ->
    length (fallback_bucket files n i)
    = length files / n + (if Nat.ltb i (length files mod n) then 1 else 0).
  Proof.
    intros Hi. unfold fallback_bucket.
    rewrite fallback_bucket_go_length. apply count_residue, Hi.
  Qed.
End FallbackBuckets.

Lemma Itoa_nat_inj (i j : nat) : Itoa (Z.of_nat i) = Itoa (Z.of_nat j) -> i = j.
Proof. unfold Itoa. intros H. apply (inj pretty) in H. lia. Qed.

Lemma fallback_keys_NoDup (files : list string) (n : nat) :
  NoDup (((fun i => (Itoa (Z.of_nat i), fallback_task files n i)) <$> seq 0 n).*1).
Proof.
  rewrite <- list_fmap_compose. apply NoDup_fmap_2_strong.
  - intros x y _ _. apply Itoa_nat_inj.
  - apply NoDup_seq.
Qed.

Lemma CreateFallbackPlan_lookup (files : list string) (parallelism : Z) (i : nat) :
  i < Z.to_nat parallelism ->
  Tasks (CreateFallbackPlan files parallelism) !! Itoa (Z.of_nat i)
  = Some (fallback_task files (Z.to_nat parallelism) i).
Proof.
  intros Hi. unfold CreateFallbackPlan; simpl.
  apply elem_of_list_to_map_1; [apply fallback_keys_NoDup|].
  apply list_elem_of_fmap. exists i. split; [done|].
  apply elem_of_seq. lia.
Qed.

Lemma CreateFallbackPlan_size (files : list string) (parallelism : Z) :
  size (Tasks (CreateFallbackPlan files parallelism)) = Z.to_nat parallelism.
Proof.
  unfold CreateFallbackPlan; simpl.
  rewrite map_size_list_to_map by apply fallback_keys_NoDup.
  rewrite length_fmap, length_seq. done.
Qed.

Lemma CreateFallbackPlan_node_tests (files : list string) (parallelism : Z) (i : nat) :
  i < Z.to_nat parallelism ->
  node_tests (CreateFallbackPlan files parallelism) (Z.of_nat i)
  = fallback_bucket files (Z.to_nat parallelism) i.
Proof.
  intros Hi. unfold node_tests. rewrite CreateFallbackPlan_lookup by done.
  simpl. rewrite map_map. simpl. apply map_id.
Qed.

(** A fallback plan for at least one worker is never the empty sentinel. *)
Lemma CreateFallbackPlan_nonempty (files : list string) (parallelism : Z) :
  (1 <= parallelism)%Z -> size (Tasks (CreateFallbackPlan files parallelism)) <> 0.
Proof. intros Hp. rewrite CreateFallbackPlan_size. lia. Qed.

Example CreateFallbackPlan_example :
  map (fun i => node_tests (CreateFallbackPlan ["a"; "b"; "c"; "d"; "e"] 2) i) [0; 1]%Z
  = [["a"; "c"; "e"]; ["b"; "d"]].
Proof. vm_compute. reflexivity. Qed.

(** C2: for [N >= 1] workers the fallback plan has exactly [N] tasks,
    keyed "0" .. "N-1"; the buckets together are a permutation of the
    files (each file in exactly one bucket, none dropped or duplicated);
    bucket sizes differ by at most one; each bucket keeps the discovery
    order of the files; and the plan is a function of its inputs. *)
Theorem CreateFallbackPlan_balanced_partition (files : list string) (parallelism : Z) :
  (1 <= parallelism)%Z ->
  let n := Z.to_nat parallelism in
  let plan := CreateFallbackPlan files parallelism in
  size (Tasks plan) = n
  /\ (forall i, i < n -> is_Some (Tasks plan !! Itoa (Z.of_nat i)))
  /\ files ≡ₚ concat (map (fun i => node_tests plan (Z.of_nat i)) (seq 0 n))
  /\ (forall i i', i < n -> i' < n ->
        length (node_tests plan (Z.of_nat i)) <= length (node_tests plan (Z.of_nat i')) + 1)
  /\ (forall i, i < n -> node_tests plan (Z.of_nat i) `sublist_of` files)
  /\ (forall files' parallelism', files' = files -> parallelism' = parallelism ->
        CreateFallbackPlan files' parallelism' = plan).
Proof.
  intros Hp n plan. unfold plan.
  assert (Hn : 0 < n) by (unfold n; lia).
  split; [apply CreateFallbackPlan_size|].
  split; [intros i Hi; rewrite CreateFallbackPlan_lookup by done; eauto|].
  split.
  { rewrite (map_ext_in _ (fallback_bucket files n)).
    - apply fallback_bucket_go_perm; done.
    - intros i Hi. apply in_seq in Hi. apply CreateFallbackPlan_node_tests. lia. }
  split.
  { intros i i' Hi Hi'.
    rewrite !CreateFallbackPlan_node_tests by done.
    fold n. rewrite !fallback_bucket_length by done.
    destruct (Nat.ltb i _), (Nat.ltb i' _); lia. }
  split.
  { intros i Hi. rewrite CreateFallbackPlan_node_tests by done.
    apply fallback_bucket_go_sublist. }
  intros ? ? -> ->. reflexivity.
Qed.

Lemma CreateFallbackPlan_balanced_partition_witness :
  (1 <= 3)%Z /\
  size (Tasks (CreateFallbackPlan ["a"; "b"; "c"; "d"] 3)) = Z.to_nat 3.
Proof.
  split; [lia|].
  apply (CreateFallbackPlan_balanced_partition ["a"; "b"; "c"; "d"] 3). lia.
Defined.

(* ------------------------------------------------------------------ *)
(** ** Plan acquisition: [fetchOrCreateTestPlan] *)

Section FetchOrCreate.
Variable client : Client.
Variable cfg : Config.
Variable files : list string.
Variable getExamples : GetExamplesFn.

Lemma handleError_cases (e : error) (p : TestPlan) :
    (if errors_Is e ErrRetryTimeout
     then Ok (CreateFallbackPlan files (cfgParallelism cfg)) else Err e) = Ok p ->
    p = CreateFallbackPlan files (cfgParallelism cfg).
  Proof. destruct (errors_Is e ErrRetryTimeout); congruence. Qed.

  (** Every successful result is the fallback plan or a plan of the
      server with a non-empty task mapping. *)
Lemma fetchOrCreateTestPlan_ok_cases (p : TestPlan) :
    fetchOrCreateTestPlan client cfg files getExamples = Ok p ->
    p = CreateFallbackPlan files (cfgParallelism cfg) \/ size (Tasks p) <> 0.
  Proof.
    unfold fetchOrCreateTestPlan.
    destruct (FetchTestPlan client _ _) as [[cached|]|e].
    - case_bool_decide; intros Hr; inversion Hr; subst; auto.
    - destruct (createRequestParam cfg files client getExamples) as [params|e].
      + destruct (CreateTestPlan client _ params) as [created|e].
        * case_bool_decide; intros Hr; inversion Hr; subst; auto.
        * intros H. left. eapply handleError_cases; eauto.
      + intros H. left. eapply handleError_cases; eauto.
    - intros H. left. eapply handleError_cases; eauto.
  Qed.
End FetchOrCreate.

(** C1: with at least one worker configured, a plan that
    [fetchOrCreateTestPlan] returns without error never has an empty
    task mapping: a cached or created sentinel, and the retry-timeout
    condition, are all replaced by the fallback plan. *)
Theorem fetchOrCreateTestPlan_never_sentinel (client : Client) (cfg : Config)
    (files : list string) (getExamples : GetExamplesFn) (p : TestPlan) :
  (1 <= cfgParallelism cfg)%Z ->
  fetchOrCreateTestPlan client cfg files getExamples = Ok p ->
  size (Tasks p) <> 0.
Proof.
  intros Hp H.
  destruct (fetchOrCreateTestPlan_ok_cases client cfg files getExamples p H) as [->|Hne];
    [apply CreateFallbackPlan_nonempty|]; done.
Qed.

Lemma fetchOrCreateTestPlan_never_sentinel_witness :
  (1 <= cfgParallelism sample_cfg)%Z
  /\ fetchOrCreateTestPlan (const_client (Err (ESentinel ErrRetryTimeout)) (Ok sentinel_plan))
       sample_cfg sample_files no_examples
     = Ok (CreateFallbackPlan sample_files 2)
  /\ size (Tasks (CreateFallbackPlan sample_files 2)) <> 0.
Proof.
  assert (Hp : (1 <= cfgParallelism sample_cfg)%Z) by (simpl; lia).
  assert (Hr : fetchOrCreateTestPlan
                 (const_client (Err (ESentinel ErrRetryTimeout)) (Ok sentinel_plan))
                 sample_cfg sample_files no_examples
               = Ok (CreateFallbackPlan sample_files 2)) by reflexivity.
  split; [exact Hp|]. split; [exact Hr|].
  exact (fetchOrCreateTestPlan_never_sentinel _ _ _ _ _ Hp Hr).
Defined.

(** C5: when the cached plan, or the plan created after a cache miss,
    is the empty sentinel, [fetchOrCreateTestPlan] returns exactly the
    fallback plan for the same files and parallelism. *)
Theorem fetchOrCreateTestPlan_sentinel_is_fallback (client : Client) (cfg : Config)
    (files : list string) (getExamples : GetExamplesFn) (sentinel : TestPlan) :
  size (Tasks sentinel) = 0 ->
  (FetchTestPlan client (cfgSuiteSlug cfg) (cfgIdentifier cfg) = Ok (Some sentinel)
   \/ (FetchTestPlan client (cfgSuiteSlug cfg) (cfgIdentifier cfg) = Ok None
       /\ exists params, createRequestParam cfg files client getExamples = Ok params
                        /\ CreateTestPlan client (cfgSuiteSlug cfg) params = Ok sentinel)) ->
  fetchOrCreateTestPlan client cfg files getExamples
  = Ok (CreateFallbackPlan files (cfgParallelism cfg)).
Proof.
  intros Hsize [Hfetch | (Hfetch & params & Hparams & Hcreate)];
    unfold fetchOrCreateTestPlan; rewrite Hfetch.
  - rewrite bool_decide_eq_true_2 by done. reflexivity.
  - rewrite Hparams, Hcreate. rewrite bool_decide_eq_true_2 by done. reflexivity.
Qed.

Lemma fetchOrCreateTestPlan_sentinel_is_fallback_witness :
  fetchOrCreateTestPlan (const_client (Ok None) (Ok sentinel_plan))
    sample_cfg sample_files no_examples
  = Ok (CreateFallbackPlan sample_files (cfgParallelism sample_cfg)).
Proof.
  apply (fetchOrCreateTestPlan_sentinel_is_fallback _ _ _ _ sentinel_plan).
  - reflexivity.
  - right. split; [reflexivity|].
    eexists. split; reflexivity.
Defined.

(* ------------------------------------------------------------------ *)
(** ** The retrier *)

Section RokoProofs.
  Context {A : Type}.
Variable maxAttempts : nat.
Variable ctxDone : nat -> bool.
Variable callback : nat -> result A * bool.

  (** A callback that breaks at attempt [k] is never followed by
      another attempt. *)
Lemma roko_loop_break_stops (k : nat) (e : error) (fuel a : nat) :
    callback k = (Err e, true) -> a < k ->
    r_calls (roko_loop maxAttempts ctxDone callback fuel a) <= k.
  Proof.
    intros Hk. revert a; induction fuel as [|fuel IH]; intros a Ha; simpl; [lia|].
    destruct (Nat.eq_dec (S a) k) as [<-|Hne].
    - rewrite Hk. simpl. lia.
    - destruct (callback (S a)) as [[x|e'] brk].
      + simpl. lia.
      + destruct (brk || Nat.leb maxAttempts (S a)); [simpl; lia|].
        destruct (ctxDone (S a)); [simpl; lia|]. apply IH. lia.
  Qed.

  (** Attempts that all fail without breaking end either at the attempt
      ceiling or with the context's error. *)
Lemma roko_loop_all_fail (fuel a : nat) :
    (forall k, exists e, callback k = (Err e, false)) ->
    a < maxAttempts -> maxAttempts <= a + fuel ->
    exists e, r_res (roko_loop maxAttempts ctxDone callback fuel a) = Err e
      /\ (r_attempts (roko_loop maxAttempts ctxDone callback fuel a) = maxAttempts
          \/ e = ESentinel DeadlineExceeded).
  Proof.
    intros Hfail. revert a; induction fuel as [|fuel IH]; intros a Ha Hfuel; [lia|].
    simpl. destruct (Hfail (S a)) as [e He]. rewrite He. simpl.
    destruct (Nat.leb_spec maxAttempts (S a)).
    - exists e. simpl. split; [done|]. left. lia.
    - destruct (ctxDone (S a)).
      + eexists. split; [reflexivity|]. right. reflexivity.
      + apply IH; lia.
  Qed.

  (** With no deadline, such attempts run exactly [maxAttempts] times. *)
Lemma roko_loop_all_fail_no_deadline (fuel a : nat) :
    (forall k, exists e, callback k = (Err e, false)) ->
    (forall k, ctxDone k = false) ->
    a < maxAttempts -> maxAttempts <= a + fuel ->
    r_calls (roko_loop maxAttempts ctxDone callback fuel a) = maxAttempts
    /\ r_attempts (roko_loop maxAttempts ctxDone callback fuel a) = maxAttempts.
  Proof.
    intros Hfail Hdone. revert a; induction fuel as [|fuel IH]; intros a Ha Hfuel; [lia|].
    simpl. destruct (Hfail (S a)) as [e He]. rewrite He. simpl.
    destruct (Nat.leb_spec maxAttempts (S a)).
    - simpl. lia.
    - rewrite Hdone. apply IH; lia.
  Qed.

Lemma roko_loop_calls_ge (fuel a : nat) :
    a <= r_calls (roko_loop maxAttempts ctxDone callback fuel a).
  Proof.
    revert a; induction fuel as [|fuel IH]; intros a; simpl; [lia|].
    destruct (callback (S a)) as [[x|e] brk]; simpl; [lia|].
    destruct (brk || Nat.leb maxAttempts (S a)); simpl; [lia|].
    destruct (ctxDone (S a)); simpl; [lia|]. specialize (IH (S a)). lia.
  Qed.

Lemma roko_loop_calls_gt (fuel a : nat) :
    0 < fuel -> S a <= r_calls (roko_loop maxAttempts ctxDone callback fuel a).
  Proof.
    intros Hf. destruct fuel as [|fuel]; [lia|]. simpl.
    destruct (callback (S a)) as [[x|e] brk]; simpl; [lia|].
    destruct (brk || Nat.leb maxAttempts (S a)); simpl; [lia|].
    destruct (ctxDone (S a)); simpl; [lia|]. apply roko_loop_calls_ge.
  Qed.

  (** A failing first attempt that does not break is retried unless the
      context is already done. *)
Lemma roko_DoFunc_retries_first (e : error) :
    1 < maxAttempts -> callback 1 = (Err e, false) -> ctxDone 1 = false ->
    2 <= r_calls (roko_DoFunc maxAttempts ctxDone callback).
  Proof.
    intros Hmax H1 Hd. unfold roko_DoFunc. simpl. rewrite H1. simpl.
    destruct (Nat.leb_spec maxAttempts 1); [lia|]. rewrite Hd.
    apply roko_loop_calls_gt. lia.
  Qed.
End RokoProofs.

(* ------------------------------------------------------------------ *)
(** ** [FetchTestPlan] of [fetch_plan.go] *)

Lemma tryFetchTestPlan_4xx (s : Z) (b : body) :
  (400 <= s < 500)%Z ->
  tryFetchTestPlan (Response s b) = Err (EWrap "server response" (ESentinel ErrInvalidRequest)).
Proof.
  intros Hs. simpl.
  destruct (Z.eqb_spec s 200); [lia|].
  rewrite (proj2 (Z.leb_le 400 s)), (proj2 (Z.ltb_lt s 500)) by lia. reflexivity.
Qed.

Lemma tryFetchTestPlan_5xx (s : Z) (b : body) :
  (500 <= s < 600)%Z -> tryFetchTestPlan (Response s b) = Err (EText "server response").
Proof.
  intros Hs. simpl.
  destruct (Z.eqb_spec s 200); [lia|].
  rewrite (proj2 (Z.ltb_ge s 500)) by lia. rewrite andb_false_r.
  rewrite (proj2 (Z.leb_le 500 s)), (proj2 (Z.ltb_lt s 600)) by lia. reflexivity.
Qed.

Lemma FetchTestPlan_api_calls (ctxDone : nat -> bool) (responses : nat -> http_response) :
  snd (FetchTestPlan_api ctxDone responses)
  = r_calls (roko_DoFunc retryMaxAttempts ctxDone (fetch_callback responses)).
Proof.
  unfold FetchTestPlan_api.
  destruct (r_res _) as [p|e]; [done|]. destruct (Nat.eqb _ _); done.
Qed.

(** Any attempt failing without the invalid-request condition is retried
    when the context is not done. *)
Lemma FetchTestPlan_api_retries_first (ctxDone : nat -> bool)
    (responses : nat -> http_response) (e : error) :
  tryFetchTestPlan (responses 1) = Err e -> errors_Is e ErrInvalidRequest = false ->
  ctxDone 1 = false -> 2 <= snd (FetchTestPlan_api ctxDone responses).
Proof.
  intros He Hinv Hd. rewrite FetchTestPlan_api_calls.
  apply (roko_DoFunc_retries_first _ _ _ e); [unfold retryMaxAttempts; lia| |done].
  unfold fetch_callback. rewrite He, Hinv. reflexivity.
Qed.

(** C4: a 4xx response to the first attempt ends [FetchTestPlan] after
    that single network attempt, with the invalid-request error; a 4xx at
    any attempt is the last attempt; a 5xx response, a transport failure
    or an unreadable or unparsable body on the first attempt is retried
    (unless the context is already done). *)
Theorem FetchTestPlan_4xx_not_retried (ctxDone : nat -> bool)
    (responses : nat -> http_response) :
  (forall s b, (400 <= s < 500)%Z -> responses 1 = Response s b ->
     exists e, FetchTestPlan_api ctxDone responses = (Err e, 1)
               /\ errors_Is e ErrInvalidRequest = true)
  /\ (forall k s b, (400 <= s < 500)%Z -> responses k = Response s b -> 1 <= k ->
        snd (FetchTestPlan_api ctxDone responses) <= k)
  /\ (forall s b, (500 <= s < 600)%Z -> responses 1 = Response s b -> ctxDone 1 = false ->
        2 <= snd (FetchTestPlan_api ctxDone responses))
  /\ (responses 1 = ConnError -> ctxDone 1 = false ->
        2 <= snd (FetchTestPlan_api ctxDone responses))
  /\ (forall b, b = BodyUnparsable \/ b = BodyReadError -> responses 1 = Response 200 b ->
        ctxDone 1 = false -> 2 <= snd (FetchTestPlan_api ctxDone responses)).
Proof.
  split.
  { intros s b Hs Hr. exists (EWrap "server response" (ESentinel ErrInvalidRequest)).
    split; [|reflexivity].
    unfold FetchTestPlan_api, roko_DoFunc, fetch_callback. simpl.
    rewrite Hr, tryFetchTestPlan_4xx by done. reflexivity. }
  split.
  { intros k s b Hs Hr Hk. rewrite FetchTestPlan_api_calls.
    apply (roko_loop_break_stops _ _ _ k (EWrap "server response" (ESentinel ErrInvalidRequest)));
      [|lia].
    unfold fetch_callback. rewrite Hr, tryFetchTestPlan_4xx by done. reflexivity. }
  split.
  { intros s b Hs Hr Hd.
    apply (FetchTestPlan_api_retries_first _ _ (EText "server response")); [|done|done].
    rewrite Hr. apply tryFetchTestPlan_5xx, Hs. }
  split.
  { intros Hr Hd.
    apply (FetchTestPlan_api_retries_first _ _ (EWrap "sending request" (EText "transport error")));
      [|done|done].
    rewrite Hr. reflexivity. }
  intros b Hb Hr Hd. destruct Hb as [-> | ->].
  - apply (FetchTestPlan_api_retries_first _ _ (EWrap "parsing response" (EText "invalid JSON")));
      [|done|done].
    rewrite Hr. reflexivity.
  - apply (FetchTestPlan_api_retries_first _ _
             (EWrap "reading response body" (EText "read error"))); [|done|done].
    rewrite Hr. reflexivity.
Qed.

Lemma FetchTestPlan_4xx_not_retried_witness :
  FetchTestPlan_api (fun _ => false) (fun _ => Response 404 BodyUnparsable)
  = (Err (EWrap "server response" (ESentinel ErrInvalidRequest)), 1)
  /\ 2 <= snd (FetchTestPlan_api (fun _ => false)
                (fun k => if Nat.eqb k 1 then Response 503 BodyUnparsable
                          else Response 200 (BodyPlan sentinel_plan))).
Proof.
  split.
  - destruct (proj1 (FetchTestPlan_4xx_not_retried (fun _ => false)
                       (fun _ => Response 404 BodyUnparsable)) 404%Z BodyUnparsable
                ltac:(lia) eq_refl) as [e [He _]].
    rewrite He. vm_compute in He. inversion He. reflexivity.
  - apply (proj1 (proj2 (proj2 (FetchTestPlan_4xx_not_retried _ _))) 503%Z BodyUnparsable);
      [lia|reflexivity|reflexivity].
Defined.

(* ------------------------------------------------------------------ *)
(** ** Plan acquisition under exhausted retries or an elapsed deadline *)

Lemma client_call_callback_fails {A : Type} (attempt : nat -> result A) :
  (forall k, exists e, attempt k = Err e /\ errors_Is e ErrInvalidRequest = false) ->
  forall k, exists e,
    (attempt k, match attempt k with Err e => errors_Is e ErrInvalidRequest | Ok _ => false end)
    = (Err e, false).
Proof.
  intros Hfail k. destruct (Hfail k) as (e & He & Hinv). exists e.
  rewrite He, Hinv. reflexivity.
Qed.

Lemma client_call_timeout {A : Type} (ctxDone : nat -> bool) (attempt : nat -> result A) :
  (forall k, exists e, attempt k = Err e /\ errors_Is e ErrInvalidRequest = false) ->
  exists e, fst (client_call ctxDone attempt) = Err e /\ errors_Is e ErrRetryTimeout = true.
Proof.
  intros Hfail. unfold client_call, roko_DoFunc. cbv zeta.
  destruct (roko_loop_all_fail retryMaxAttempts ctxDone _ (S retryMaxAttempts) 0
              (client_call_callback_fails attempt Hfail))
    as (e & Hres & Hend); [unfold retryMaxAttempts; lia..|].
  rewrite Hres. destruct Hend as [Ha | ->].
  - rewrite Ha, Nat.eqb_refl. eexists; split; reflexivity.
  - assert (Hd : errors_Is (ESentinel DeadlineExceeded) DeadlineExceeded = true)
      by reflexivity.
    rewrite Hd, orb_true_r. eexists; split; reflexivity.
Qed.

Lemma client_call_exhausts {A : Type} (ctxDone : nat -> bool) (attempt : nat -> result A) :
  (forall k, exists e, attempt k = Err e /\ errors_Is e ErrInvalidRequest = false) ->
  (forall k, ctxDone k = false) ->
  snd (client_call ctxDone attempt) = retryMaxAttempts.
Proof.
  intros Hfail Hd. unfold client_call, roko_DoFunc. cbv zeta.
  destruct (roko_loop_all_fail_no_deadline retryMaxAttempts ctxDone _ (S retryMaxAttempts) 0
              (client_call_callback_fails attempt Hfail) Hd)
    as [Hc Ha]; [unfold retryMaxAttempts; lia..|].
  destruct (r_res _) as [a|e]; [done|].
  destruct (_ || _); done.
Qed.

Lemma client_call_first_ok {A : Type} (ctxDone : nat -> bool) (attempt : nat -> result A)
    (a : A) :
  attempt 1 = Ok a -> fst (client_call ctxDone attempt) = Ok a.
Proof.
  intros H. unfold client_call, roko_DoFunc. cbn [roko_loop]. rewrite H. reflexivity.
Qed.

(** C3: each of the three requests of plan acquisition — the cache
    fetch, the plan creation (once its request is built) and, when
    splitting by example, the file-timing fetch — whose every attempt
    fails with a retryable error (a 5xx response, a connection failure,
    an unreadable or unparsable body) ends in the retry-timeout
    condition, whether the attempt ceiling is reached or the deadline
    elapses first; [fetchOrCreateTestPlan] then returns the fallback
    plan without error, and with no deadline exactly the 5 attempts of
    the ceiling are made. A sustained run of 5xx responses is such a
    failure. *)
Theorem plan_acquisition_retry_timeout_falls_back (cfg : Config) (files : list string)
    (getExamples : GetExamplesFn)
    (fetchDone : nat -> bool) (fetchAttempts : nat -> result (option TestPlan))
    (createDone : nat -> bool) (createResponses : nat -> http_response)
    (timingDone : nat -> bool) (timingAttempts : nat -> result (gmap string Z)) :
  let client := retrying_client fetchDone fetchAttempts createDone createResponses
                  timingDone timingAttempts in
  ((forall k, exists e, fetchAttempts k = Err e /\ errors_Is e ErrInvalidRequest = false) ->
     fetchOrCreateTestPlan client cfg files getExamples
     = Ok (CreateFallbackPlan files (cfgParallelism cfg))
     /\ ((forall k, fetchDone k = false) -> snd (client_call fetchDone fetchAttempts) = 5))
  /\ (forall params, fetchAttempts 1 = Ok None ->
      createRequestParam cfg files client getExamples = Ok params ->
      (forall k, exists e, tryFetchTestPlan (createResponses k) = Err e
                           /\ errors_Is e ErrInvalidRequest = false) ->
      fetchOrCreateTestPlan client cfg files getExamples
      = Ok (CreateFallbackPlan files (cfgParallelism cfg))
      /\ ((forall k, createDone k = false) ->
          snd (client_call createDone (fun k => tryFetchTestPlan (createResponses k))) = 5))
  /\ (fetchAttempts 1 = Ok None -> cfgSplitByExample cfg = true ->
      (forall k, exists e, timingAttempts k = Err e /\ errors_Is e ErrInvalidRequest = false) ->
      fetchOrCreateTestPlan client cfg files getExamples
      = Ok (CreateFallbackPlan files (cfgParallelism cfg))
      /\ ((forall k, timingDone k = false) -> snd (client_call timingDone timingAttempts) = 5))
  /\ ((forall k, exists s b, createResponses k = Response s b /\ (500 <= s < 600)%Z) ->
      forall k, exists e, tryFetchTestPlan (createResponses k) = Err e
                          /\ errors_Is e ErrInvalidRequest = false).
Proof.
  intros client. split; [|split; [|split]].
  - intros Hfail. split; [|intros Hd; apply client_call_exhausts; done].
    destruct (client_call_timeout fetchDone fetchAttempts Hfail) as (e & He & Hto).
    unfold fetchOrCreateTestPlan. simpl. rewrite He, Hto. reflexivity.
  - intros params Hmiss Hp Hcreate.
    split; [|intros Hd; apply client_call_exhausts; done].
    destruct (client_call_timeout createDone _ Hcreate) as (e & He & Hto).
    unfold fetchOrCreateTestPlan. rewrite Hp.
    change (FetchTestPlan client (cfgSuiteSlug cfg) (cfgIdentifier cfg))
      with (fst (client_call fetchDone fetchAttempts)).
    rewrite (client_call_first_ok fetchDone fetchAttempts None Hmiss).
    change (CreateTestPlan client (cfgSuiteSlug cfg) params)
      with (fst (client_call createDone (fun k => tryFetchTestPlan (createResponses k)))).
    rewrite He. cbv zeta. rewrite Hto. reflexivity.
  - intros Hmiss Hsplit Hfail.
    split; [|intros Hd; apply client_call_exhausts; done].
    destruct (client_call_timeout timingDone timingAttempts Hfail) as (e & He & Hto).
    unfold fetchOrCreateTestPlan, createRequestParam. rewrite Hsplit.
    change (FetchTestPlan client (cfgSuiteSlug cfg) (cfgIdentifier cfg))
      with (fst (client_call fetchDone fetchAttempts)).
    rewrite (client_call_first_ok fetchDone fetchAttempts None Hmiss).
    change (FetchFilesTiming client (cfgSuiteSlug cfg) files)
      with (fst (client_call timingDone timingAttempts)).
    rewrite He. cbn [negb errors_Is]. rewrite Hto. reflexivity.
  - intros H5 k. destruct (H5 k) as (s & b & Hr & Hs).
    rewrite Hr, tryFetchTestPlan_5xx by done. eexists; split; reflexivity.
Qed.

Lemma plan_acquisition_retry_timeout_falls_back_witness :
  fetchOrCreateTestPlan
    (retrying_client (fun _ => false) (fun _ => Err (EText "server response"))
       (fun _ => false) (fun _ => Response 503 BodyUnparsable)
       (fun _ => false) (fun _ => Ok ∅))
    sample_cfg sample_files no_examples
  = Ok (CreateFallbackPlan sample_files (cfgParallelism sample_cfg))
  /\ fetchOrCreateTestPlan
    (retrying_client (fun _ => false) (fun _ => Ok None)
       (fun _ => false) (fun _ => ConnError)
       (fun _ => false) (fun _ => Ok ∅))
    sample_cfg sample_files no_examples
  = Ok (CreateFallbackPlan sample_files (cfgParallelism sample_cfg))
  /\ fetchOrCreateTestPlan
    (retrying_client (fun _ => false) (fun _ => Ok None)
       (fun _ => false) (fun _ => Response 200 (BodyPlan sentinel_plan))
       (fun k => Nat.eqb k 3) (fun _ => Err (EText "server response")))
    split_cfg sample_files one_example_each
  = Ok (CreateFallbackPlan sample_files (cfgParallelism split_cfg))
  /\ (forall k : nat, exists e, tryFetchTestPlan (Response 503 BodyUnparsable) = Err e
                                /\ errors_Is e ErrInvalidRequest = false).
Proof.
  split; [|split; [|split]].
  - apply (proj1 (plan_acquisition_retry_timeout_falls_back sample_cfg sample_files no_examples
                  (fun _ => false) (fun _ => Err (EText "server response"))
                  (fun _ => false) (fun _ => Response 503 BodyUnparsable)
                  (fun _ => false) (fun _ => Ok ∅))).
    intros k. eexists. split; reflexivity.
  - apply (proj1 (proj2 (plan_acquisition_retry_timeout_falls_back sample_cfg sample_files
                  no_examples (fun _ => false) (fun _ => Ok None)
                  (fun _ => false) (fun _ => ConnError)
                  (fun _ => false) (fun _ => Ok ∅)))
             {| Mode := "static"; Identifier := "build-1"; Parallelism := 2;
                TestFiles := map file_case sample_files; TestExamples := [] |}).
    + reflexivity.
    + reflexivity.
    + intros k. eexists. split; reflexivity.
  - apply (proj1 (proj2 (proj2 (plan_acquisition_retry_timeout_falls_back split_cfg sample_files
                  one_example_each (fun _ => false) (fun _ => Ok None)
                  (fun _ => false) (fun _ => Response 200 (BodyPlan sentinel_plan))
                  (fun k => Nat.eqb k 3) (fun _ => Err (EText "server response")))))).
    + reflexivity.
    + reflexivity.
    + intros k. eexists. split; reflexivity.
  - apply (proj2 (proj2 (proj2 (plan_acquisition_retry_timeout_falls_back sample_cfg sample_files
                  no_examples (fun _ => false) (fun _ => Err (EText "server response"))
                  (fun _ => false) (fun _ => Response 503 BodyUnparsable)
                  (fun _ => false) (fun _ => Ok ∅))))).
    intros k. exists 503%Z, BodyUnparsable. split; [reflexivity|lia].
Defined.

(* ------------------------------------------------------------------ *)
(** ** The execution supervisor *)

Lemma ret_extends {A : Type} (a : A) : extends (ret a).
Proof. intros tr. exists []. simpl. by rewrite app_nil_r. Qed.

Lemma emit_extends (ev : event) : extends (emit ev).
Proof. intros tr. exists [ev]. reflexivity. Qed.

Lemma os_Exit_extends {A : Type} (code : Z) : extends (@os_Exit A code).
Proof. intros tr. exists [EvExit code]. reflexivity. Qed.

Lemma bindM_extends {A B : Type} (m : M A) (k : A -> M B) :
  extends m -> (forall a, extends (k a)) -> extends (bindM m k).
Proof.
  intros Hm Hk tr. unfold bindM. destruct (Hm tr) as [r1 H1].
  destruct (m tr) as [a tr'|tr']; simpl in H1; subst.
  - destruct (Hk a (tr ++ r1)) as [r2 H2]. exists (r1 ++ r2). by rewrite H2, app_assoc.
  - exists r1. reflexivity.
Qed.

Lemma logErrorAndExit_extends {A : Type} (code : Z) (msg : string) :
  extends (@logErrorAndExit A code msg).
Proof.
  unfold logErrorAndExit. apply bindM_extends; [apply emit_extends|].
  intros _. apply os_Exit_extends.
Qed.

Create HintDb trace.
#[local] Hint Resolve ret_extends emit_extends os_Exit_extends bindM_extends
  logErrorAndExit_extends : trace.

Lemma retryLoop_extends (env : Env) (maxRetries : Z) (fuel : nat) :
  forall retries timeline, extends (retryLoop env maxRetries fuel retries timeline).
Proof.
  induction fuel as [|fuel IH]; intros retries timeline; simpl; [auto with trace|].
  destruct (retries <? maxRetries)%Z; [|auto with trace].
  apply bindM_extends; [auto with trace|intros _].
  apply bindM_extends; [auto with trace|intros _].
  destruct (envRetryCommand env (retries + 1)); [|auto with trace].
  destruct (negb _); [auto with trace|].
  apply bindM_extends; [auto with trace|intros _].
  destruct (envRetryWait env (retries + 1)); [auto with trace| |auto].
  destruct (maxRetries <=? retries + 1)%Z; auto with trace.
Qed.

Lemma superviseWait_extends (env : Env) (cfg : Config) (timeline : list string) :
  extends (superviseWait env cfg timeline).
Proof.
  unfold superviseWait, sendMetadata. destruct (envWait env); [auto with trace| |auto with trace].
  destruct (cfgMaxRetries cfg =? 0)%Z; [auto with trace|].
  apply bindM_extends; [apply retryLoop_extends|]. intros [c tl].
  destruct (negb _); auto with trace.
Qed.

Lemma main_reaches_wait (env : Env) (cfg : Config) (p : TestPlan) :
  reaches_wait env cfg p ->
  main env [] = superviseWait env cfg ["test_start"]
                  (primary_prefix (node_tests p (cfgNodeIndex cfg))).
Proof.
  intros (Hcfg & Hver & (files & Hfiles & Hplan) & (c & Hcmd) & Hstart).
  unfold main, bindM at 1. rewrite Hcfg. simpl. rewrite Hver.
  unfold bindM. simpl. rewrite Hfiles. simpl. rewrite Hplan. simpl.
  rewrite Hcmd. simpl. rewrite Hstart. reflexivity.
Qed.

Section RetryLoop.
Variable env : Env.
Variables (m c : Z).
Hypothesis Hcmd : forall k, (0 < k <= m)%Z -> exists rc, envRetryCommand env k = Ok rc.
Hypothesis Hstart : forall k, (0 < k <= m)%Z -> envRetryStart env k = true.
Hypothesis Hfail : forall k, (0 < k < m)%Z -> envRetryWait env k <> WaitOk.
Hypothesis Hlast : envRetryWait env m = WaitExitError c.

Lemma retryLoop_exhausts (n : nat) :
    forall r timeline tr, (0 <= r)%Z -> (r + Z.of_nat n = m)%Z -> 0 < n ->
    exists timeline' tr', retryLoop env m n r timeline tr = Running (c, timeline') tr'.
  Proof.
    induction n as [|n IH]; intros r timeline tr Hr Hn Hpos; [lia|].
    cbn [retryLoop]. replace (r <? m)%Z with true by (symmetry; apply Z.ltb_lt; lia).
    destruct (Hcmd (r + 1)%Z) as [rc Hrc]; [lia|].
    unfold bindM, emit. rewrite Hrc, (Hstart (r + 1)%Z) by lia. simpl.
    destruct (Z.eq_dec (r + 1)%Z m) as [Heq|Hne].
    - rewrite Heq, Hlast, Z.leb_refl. eexists; eexists; reflexivity.
    - destruct (envRetryWait env (r + 1)%Z) eqn:Hw.
      + exfalso. apply (Hfail (r + 1)%Z); [lia|exact Hw].
      + replace (m <=? r + 1)%Z with false by (symmetry; apply Z.leb_gt; lia).
        apply IH; lia.
      + apply IH; lia.
  Qed.
End RetryLoop.

(** C6: once the primary run is waited for, the supervisor behaves as
    follows. A primary run that succeeds sends the timeline and exits 0
    with no retry; a primary run exiting with [code] under
    [MaxRetries = 0] exits with [code] unchanged; under [MaxRetries = 2],
    a failed first retry followed by a successful second one exits 0
    after recording the start and end of both retries in the timeline;
    and when every configured retry fails, the last one with an exit
    code [c], the program exits with [c]. *)
Theorem supervisor_exit_codes (env : Env) (cfg : Config) (p : TestPlan) :
  reaches_wait env cfg p ->
  let tests := node_tests p (cfgNodeIndex cfg) in
  (envWait env = WaitOk ->
   run_main env = primary_prefix tests ++ [EvSendMetadata ["test_start"; "test_end"]; EvExit 0])
  /\ (forall code, envWait env = WaitExitError code -> cfgMaxRetries cfg = 0%Z ->
      run_main env = primary_prefix tests ++
        [EvSendMetadata ["test_start"; "test_end"]; EvPrint "Rspec exited with error %v";
         EvExit code])
  /\ (forall code, envWait env = WaitExitError code -> cfgMaxRetries cfg = 2%Z ->
      (forall k, (0 < k <= 2)%Z -> exists rc, envRetryCommand env k = Ok rc) ->
      (forall k, (0 < k <= 2)%Z -> envRetryStart env k = true) ->
      envRetryWait env 1 <> WaitOk -> envRetryWait env 2 = WaitOk ->
      run_main env = primary_prefix tests ++
        [EvPrint "Attempt %d of %d to retry failing tests"; EvRetryCommand; EvStart;
         EvPrint "Attempt %d of %d to retry failing tests"; EvRetryCommand; EvStart;
         EvSendMetadata ["test_start"; "test_end"; "retry_1_start"; "retry_1_end";
                         "retry_2_start"; "retry_2_end"];
         EvExit 0])
  /\ (forall code c, envWait env = WaitExitError code -> (0 < cfgMaxRetries cfg)%Z ->
      (forall k, (0 < k <= cfgMaxRetries cfg)%Z -> exists rc, envRetryCommand env k = Ok rc) ->
      (forall k, (0 < k <= cfgMaxRetries cfg)%Z -> envRetryStart env k = true) ->
      (forall k, (0 < k < cfgMaxRetries cfg)%Z -> envRetryWait env k <> WaitOk) ->
      envRetryWait env (cfgMaxRetries cfg) = WaitExitError c ->
      exists tr, run_main env = tr ++ [EvExit c]).
Proof.
  intros Hreach tests. unfold run_main. rewrite (main_reaches_wait _ _ _ Hreach).
  fold tests. unfold superviseWait. split; [|split; [|split]].
  - intros Hw. rewrite Hw. reflexivity.
  - intros code Hw Hm. rewrite Hw, Hm. reflexivity.
  - intros code Hw Hm Hcmd Hst H1 H2. rewrite Hw, Hm.
    destruct (Hcmd 1%Z) as [rc1 Hc1]; [lia|]. destruct (Hcmd 2%Z) as [rc2 Hc2]; [lia|].
    pose proof (Hst 1%Z ltac:(lia)) as Hs1. pose proof (Hst 2%Z ltac:(lia)) as Hs2.
    unfold retryFailedTests. simpl. change (0 + 1 + 1)%Z with 2%Z. change (0 + 1)%Z with 1%Z.
    rewrite Hc1, Hs1, Hc2, Hs2, H2.
    destruct (envRetryWait env 1); [done|reflexivity|reflexivity].
  - intros code c Hw Hm Hcmd Hst Hfail Hlast. rewrite Hw.
    replace (cfgMaxRetries cfg =? 0)%Z with false by (symmetry; apply Z.eqb_neq; lia).
    unfold retryFailedTests. simpl.
    destruct (retryLoop_exhausts env (cfgMaxRetries cfg) c Hcmd Hst Hfail Hlast
                (Z.to_nat (cfgMaxRetries cfg)) 0 ["test_start"; "test_end"]
                (primary_prefix tests)) as (tl & tr & Heq); [lia|lia|lia|].
    unfold bindM. rewrite Heq.
    destruct (c =? 0)%Z eqn:Hc; simpl.
    + apply Z.eqb_eq in Hc. subst c. eexists. reflexivity.
    + eexists. reflexivity.
Qed.

Ltac solve_reaches_wait :=
  split; [reflexivity|]; split; [reflexivity|];
  split; [eexists; split; [reflexivity|vm_compute; reflexivity]|];
  split; [eexists; reflexivity|reflexivity].

Lemma supervisor_exit_codes_witness :
  let p := CreateFallbackPlan sample_files 2 in
  let tests := node_tests p 0 in
  run_main (sample_env (Ok (sample_cfg_retries 2)) false WaitOk ok_retry_command
              (fun _ => WaitOk))
  = primary_prefix tests ++ [EvSendMetadata ["test_start"; "test_end"]; EvExit 0]
  /\ run_main (sample_env (Ok (sample_cfg_retries 0)) false (WaitExitError 2) ok_retry_command
                 (fun _ => WaitOk))
     = primary_prefix tests ++
         [EvSendMetadata ["test_start"; "test_end"]; EvPrint "Rspec exited with error %v";
          EvExit 2]
  /\ run_main (sample_env (Ok (sample_cfg_retries 2)) false (WaitExitError 1) ok_retry_command
                 (fun k => if (k =? 1)%Z then WaitExitError 1 else WaitOk))
     = primary_prefix tests ++
         [EvPrint "Attempt %d of %d to retry failing tests"; EvRetryCommand; EvStart;
          EvPrint "Attempt %d of %d to retry failing tests"; EvRetryCommand; EvStart;
          EvSendMetadata ["test_start"; "test_end"; "retry_1_start"; "retry_1_end";
                          "retry_2_start"; "retry_2_end"];
          EvExit 0]
  /\ exists tr,
       run_main (sample_env (Ok (sample_cfg_retries 3)) false (WaitExitError 1) ok_retry_command
                   (fun k => WaitExitError (k + 4)))
       = tr ++ [EvExit 7].
Proof.
  intros p tests. split; [|split; [|split]].
  - refine (proj1 (supervisor_exit_codes (sample_env (Ok (sample_cfg_retries 2)) false WaitOk ok_retry_command
                    (fun _ => WaitOk)) (sample_cfg_retries 2) p _) eq_refl).
    solve_reaches_wait.
  - refine (proj1 (proj2 (supervisor_exit_codes (sample_env (Ok (sample_cfg_retries 0)) false (WaitExitError 2)
                    ok_retry_command (fun _ => WaitOk)) (sample_cfg_retries 0) p _)) 2%Z eq_refl eq_refl).
    solve_reaches_wait.
  - refine (proj1 (proj2 (proj2 (supervisor_exit_codes (sample_env (Ok (sample_cfg_retries 2)) false (WaitExitError 1)
                    ok_retry_command (fun k => if (k =? 1)%Z then WaitExitError 1 else WaitOk))
                    (sample_cfg_retries 2) p _)))
              1%Z eq_refl eq_refl _ _ _ eq_refl).
    + solve_reaches_wait.
    + intros k _. eexists. reflexivity.
    + intros k _. reflexivity.
    + discriminate.
  - refine (proj2 (proj2 (proj2 (supervisor_exit_codes (sample_env (Ok (sample_cfg_retries 3)) false (WaitExitError 1)
                    ok_retry_command (fun k => WaitExitError (k + 4)))
                    (sample_cfg_retries 3) p _)))
              1%Z 7%Z eq_refl _ _ _ _ eq_refl).
    + solve_reaches_wait.
    + simpl. lia.
    + intros k _. eexists. reflexivity.
    + intros k _. reflexivity.
    + intros k _. discriminate.
Defined.

(* ------------------------------------------------------------------ *)
(** ** Command templates *)










(* ------------------------------------------------------------------ *)
(** ** Retry templates *)

Lemma retry_command_error_exits (env : Env) (cfg : Config) (p : TestPlan) (code : Z) (e : error) :
  reaches_wait env cfg p -> envWait env = WaitExitError code -> (0 < cfgMaxRetries cfg)%Z ->
  envRetryCommand env 1 = Err e ->
  run_main env = primary_prefix (node_tests p (cfgNodeIndex cfg)) ++
    [EvPrint "Attempt %d of %d to retry failing tests"; EvRetryCommand;
     EvPrint "Couldn't process retry command: %v"; EvExit 16].
Proof.
  intros Hreach Hw Hm He. unfold run_main. rewrite (main_reaches_wait _ _ _ Hreach).
  unfold superviseWait. rewrite Hw.
  replace (cfgMaxRetries cfg =? 0)%Z with false by (symmetry; apply Z.eqb_neq; lia).
  unfold retryFailedTests.
  destruct (Z.to_nat (cfgMaxRetries cfg)) eqn:Hn; [lia|].
  cbn [retryLoop]. replace (0 <? cfgMaxRetries cfg)%Z with true by (symmetry; apply Z.ltb_lt; lia).
  change (0 + 1)%Z with 1%Z. rewrite He. reflexivity.
Qed.

(** The retry template of the Jest runner test that lacks
    [{{testNamePattern}}]: the primary run spawns and fails, the retry
    loop asks for the retry command, its builder rejects the template,
    and the program exits 16. The rejection comes after the primary test
    process has spawned. *)
Lemma retry_template_rejected_after_primary_spawn :
  retryCommandNameAndArgs "jest.json" "jest --json --outputFile {{outputFile}}" ["t1"; "t2"]
  = Err (EText retrySentinelError)
  /\ run_main (sample_env (Ok (sample_cfg_retries 2)) false (WaitExitError 1)
                 (fun _ => retryCommandNameAndArgs "jest.json"
                             "jest --json --outputFile {{outputFile}}" ["t1"; "t2"])
                 (fun _ => WaitOk))
     = [EvGetFiles; EvFetchPlan; EvCommand ["a.spec"; "d.spec"]; EvStart;
        EvPrint "Attempt %d of %d to retry failing tests"; EvRetryCommand;
        EvPrint "Couldn't process retry command: %v"; EvExit 16].
Proof. split; vm_compute; reflexivity. Qed.

(** C8 (as amended): the retry command builder replaces
    [{{testNamePattern}}] by the failed identifiers joined by [|] in
    parentheses, verbatim; a template without the placeholder makes the
    builder fail with the error [couldn't find '{{testNamePattern}}'
    sentinel in retry command] and build no command. The builder runs in
    the retry loop, after the primary test process has spawned and
    failed; its error makes the program exit 16 before any retry process
    spawns. *)
Theorem retry_template_checked_when_retry_built (resultPath cmd : string)
    (names : list string) :
  (str_contains "{{testNamePattern}}" cmd = false ->
   retryCommandNameAndArgs resultPath cmd names = Err (EText retrySentinelError))
  /\ (str_contains "{{testNamePattern}}" cmd = true ->
      retryCommandNameAndArgs resultPath cmd names
      = match shellquote_Split (str_replace "{{outputFile}}" resultPath
               (str_replace "{{testNamePattern}}" (testNamePattern names) cmd)) with
        | Err e => Err e
        | Ok words => name_and_args words
        end)
  /\ testNamePattern ["t1"; "t2"] = "(t1|t2)"
  /\ testNamePattern ["a.b*"; "c(d)"] = "(a.b*|c(d))"
  /\ retryCommandNameAndArgs "jest.json"
       "jest --testNamePattern '{{testNamePattern}}' --json --testLocationInResults --outputFile {{outputFile}}"
       ["this will fail"; "this other one will fail"]
     = Ok ("jest", ["--testNamePattern"; "(this will fail|this other one will fail)"; "--json";
                    "--testLocationInResults"; "--outputFile"; "jest.json"])
  /\ (forall env cfg p code e,
        reaches_wait env cfg p -> envWait env = WaitExitError code ->
        (0 < cfgMaxRetries cfg)%Z -> envRetryCommand env 1 = Err e ->
        run_main env = primary_prefix (node_tests p (cfgNodeIndex cfg)) ++
          [EvPrint "Attempt %d of %d to retry failing tests"; EvRetryCommand;
           EvPrint "Couldn't process retry command: %v"; EvExit 16]).
Proof.
  split; [|split; [|split; [|split; [|split]]]].
  - intros Hc. unfold retryCommandNameAndArgs. rewrite Hc. reflexivity.
  - intros Hc. unfold retryCommandNameAndArgs. rewrite Hc. reflexivity.
  - reflexivity.
  - reflexivity.
  - vm_compute. reflexivity.
  - intros env cfg p code e. apply retry_command_error_exits.
Qed.

Lemma retry_template_checked_when_retry_built_witness :
  retryCommandNameAndArgs "jest.json" "jest --json --outputFile {{outputFile}}" ["t1"; "t2"]
  = Err (EText retrySentinelError)
  /\ retryCommandNameAndArgs "out.json" "rspec -e '{{testNamePattern}}' -o {{outputFile}}"
       ["t1"; "t2"]
     = match shellquote_Split (str_replace "{{outputFile}}" "out.json"
               (str_replace "{{testNamePattern}}" (testNamePattern ["t1"; "t2"])
                  "rspec -e '{{testNamePattern}}' -o {{outputFile}}")) with
       | Err e => Err e
       | Ok words => name_and_args words
       end
  /\ run_main (sample_env (Ok (sample_cfg_retries 2)) false (WaitExitError 1)
                 (fun _ => retryCommandNameAndArgs "jest.json"
                             "jest --json --outputFile {{outputFile}}" ["t1"; "t2"])
                 (fun _ => WaitOk))
     = primary_prefix (node_tests (CreateFallbackPlan sample_files 2) 0) ++
         [EvPrint "Attempt %d of %d to retry failing tests"; EvRetryCommand;
          EvPrint "Couldn't process retry command: %v"; EvExit 16].
Proof.
  split; [|split].
  - apply (proj1 (retry_template_checked_when_retry_built "jest.json"
                    "jest --json --outputFile {{outputFile}}" ["t1"; "t2"])).
    vm_compute. reflexivity.
  - apply (proj1 (proj2 (retry_template_checked_when_retry_built "out.json"
                           "rspec -e '{{testNamePattern}}' -o {{outputFile}}" ["t1"; "t2"]))).
    vm_compute. reflexivity.
  - apply (proj2 (proj2 (proj2 (proj2 (proj2 (retry_template_checked_when_retry_built
             "jest.json" "jest" [])))))) with (cfg := sample_cfg_retries 2) (code := 1%Z)
      (e := EText retrySentinelError).
    + solve_reaches_wait.
    + reflexivity.
    + simpl. lia.
    + vm_compute. reflexivity.
Defined.

(* ------------------------------------------------------------------ *)
(** ** The version flag *)

(** C9: [config.New()] runs before the [--version] flag is looked at.
    With [--version] and a configuration that [config.New()] rejects,
    the program prints the configuration error and exits 16 instead of
    printing the version and exiting 0; with a valid configuration it
    prints the version and exits 0, before any file discovery, network
    call or process start. *)
Theorem version_flag_after_config (env : Env) :
  envVersionFlag env = true ->
  (forall e, envConfig env = Err e ->
     run_main env = [EvPrint "Invalid configuration: %v"; EvExit 16])
  /\ (forall cfg, envConfig env = Ok cfg ->
      run_main env = [EvPrint (envVersion env); EvExit 0]).
Proof.
  intros Hv. split.
  - intros e He. unfold run_main, main, bindM. rewrite He. reflexivity.
  - intros cfg Hc. unfold run_main, main, bindM at 1. rewrite Hc. simpl. rewrite Hv.
    reflexivity.
Qed.

Lemma version_flag_after_config_witness :
  run_main (sample_env (Err (EText "required environment variable BUILDKITE_SPLITTER_SUITE_SLUG is not set"))
              true WaitOk ok_retry_command (fun _ => WaitOk))
  = [EvPrint "Invalid configuration: %v"; EvExit 16]
  /\ run_main (sample_env (Ok sample_cfg) true WaitOk ok_retry_command (fun _ => WaitOk))
     = [EvPrint "v0.5.0"; EvExit 0].
Proof.
  split.
  - apply (proj1 (version_flag_after_config
                    (sample_env (Err (EText "required environment variable BUILDKITE_SPLITTER_SUITE_SLUG is not set"))
                       true WaitOk ok_retry_command (fun _ => WaitOk)) eq_refl)
             (EText "required environment variable BUILDKITE_SPLITTER_SUITE_SLUG is not set")).
    reflexivity.
  - apply (proj2 (version_flag_after_config
                    (sample_env (Ok sample_cfg) true WaitOk ok_retry_command (fun _ => WaitOk))
                    eq_refl) sample_cfg).
    reflexivity.
Defined.

(* ================================================================== *)
(** * Further properties of the code *)

(* ------------------------------------------------------------------ *)
(** ** The retrier and [FetchTestPlan] *)

Section RokoMore.
Context {A : Type}.
Variable maxAttempts : nat.
Variable ctxDone : nat -> bool.
Variable callback : nat -> result A * bool.

Lemma roko_loop_calls_le (fuel a : nat) :
  a < maxAttempts -> r_calls (roko_loop maxAttempts ctxDone callback fuel a) <= maxAttempts.
Proof.
  revert a; induction fuel as [|fuel IH]; intros a Ha; simpl; [lia|].
  destruct (callback (S a)) as [[x|e] brk]; simpl; [lia|].
  destruct (Nat.leb_spec maxAttempts (S a)); [rewrite orb_true_r; simpl; lia|].
  rewrite orb_false_r. destruct brk; simpl; [lia|].
  destruct (ctxDone (S a)); simpl; [lia|]. apply IH. lia.
Qed.

(** Attempts [a + 1], ..., [j - 1] that fail without breaking, before
    the deadline and below the ceiling, lead to attempt [j]. *)
Lemma roko_loop_skip (j : nat) (fuel : nat) : forall a,
  (forall k, a < k < j -> exists e, callback k = (Err e, false)) ->
  (forall k, a < k < j -> ctxDone k = false) ->
  j <= maxAttempts -> a < j -> j <= a + fuel ->
  roko_loop maxAttempts ctxDone callback fuel a
  = roko_loop maxAttempts ctxDone callback (fuel - (j - 1 - a)) (j - 1).
Proof.
  induction fuel as [|fuel IH]; intros a Hfail Hdone Hj Ha Hfuel; [lia|].
  destruct (Nat.eq_dec a (j - 1)) as [->|Hne].
  { replace (S fuel - (j - 1 - (j - 1))) with (S fuel) by lia. reflexivity. }
  simpl. destruct (Hfail (S a)) as [e He]; [lia|]. rewrite He. simpl.
  destruct (Nat.leb_spec maxAttempts (S a)); [lia|]. rewrite Hdone by lia.
  rewrite IH; [f_equal; lia|intros k Hk; apply Hfail; lia|intros k Hk; apply Hdone; lia|lia..].
Qed.
End RokoMore.

Lemma FetchTestPlan_api_skip (ctxDone : nat -> bool) (responses : nat -> http_response) (j : nat) :
  1 <= j <= 5 ->
  (forall k, 1 <= k < j -> exists e, tryFetchTestPlan (responses k) = Err e
                                     /\ errors_Is e ErrInvalidRequest = false) ->
  (forall k, 1 <= k < j -> ctxDone k = false) ->
  roko_DoFunc retryMaxAttempts ctxDone (fetch_callback responses)
  = roko_loop retryMaxAttempts ctxDone (fetch_callback responses) (S (5 - (j - 1))) (j - 1).
Proof.
  intros Hj Hfail Hdone. unfold roko_DoFunc.
  rewrite (roko_loop_skip retryMaxAttempts ctxDone (fetch_callback responses) j);
    [| |intros k Hk; apply Hdone; lia|unfold retryMaxAttempts; lia|lia|unfold retryMaxAttempts; lia].
  - unfold retryMaxAttempts. f_equal. lia.
  - intros k Hk. destruct (Hfail k) as (e & He & Hinv); [lia|]. exists e.
    unfold fetch_callback. rewrite He, Hinv. reflexivity.
Qed.

(** The plan request makes at least one and at most 5 network
    attempts, whatever the responses and the deadline. *)
Theorem FetchTestPlan_api_attempts_bounded (ctxDone : nat -> bool)
    (responses : nat -> http_response) :
  1 <= snd (FetchTestPlan_api ctxDone responses) <= 5.
Proof.
  rewrite FetchTestPlan_api_calls. unfold roko_DoFunc. split.
  - apply roko_loop_calls_gt. lia.
  - apply roko_loop_calls_le. unfold retryMaxAttempts. lia.
Qed.

(** A response of a status other than 200, 4xx and 5xx (such as 204 or
    302) is not an error by its status: its body is read and parsed, a
    plan body is returned as the plan, and a body that cannot be read
    or parsed gives an error that is not the invalid-request condition,
    so the attempt is retried. *)
Theorem tryFetchTestPlan_other_status (s : Z) :
  s <> 200%Z -> (s < 400 \/ 600 <= s)%Z ->
  (forall p, tryFetchTestPlan (Response s (BodyPlan p)) = Ok p)
  /\ (forall b, (forall p, b <> BodyPlan p) ->
      exists e, tryFetchTestPlan (Response s b) = Err e
                /\ errors_Is e ErrInvalidRequest = false).
Proof.
  intros H200 Hs.
  assert (Hfall : forall b, tryFetchTestPlan (Response s b) = read_plan b).
  { intros b. simpl. destruct (Z.eqb_spec s 200); [lia|].
    destruct (400 <=? s)%Z eqn:H1, (s <? 500)%Z eqn:H2, (500 <=? s)%Z eqn:H3,
      (s <? 600)%Z eqn:H4; simpl; try reflexivity;
      rewrite ?Z.leb_le, ?Z.ltb_lt, ?Z.leb_gt, ?Z.ltb_ge in *; lia. }
  split.
  - intros p. rewrite Hfall. reflexivity.
  - intros b Hb. rewrite Hfall. destruct b as [| |p].
    + eexists. split; reflexivity.
    + eexists. split; reflexivity.
    + exfalso. exact (Hb p eq_refl).
Qed.

Lemma tryFetchTestPlan_other_status_witness :
  (302 <> 200 /\ (302 < 400 \/ 600 <= 302))%Z
  /\ tryFetchTestPlan (Response 302 (BodyPlan (CreateFallbackPlan sample_files 2)))
     = Ok (CreateFallbackPlan sample_files 2).
Proof.
  split; [lia|].
  apply (proj1 (tryFetchTestPlan_other_status 302 ltac:(lia) ltac:(lia))).
Defined.

(** When the attempts before the [j]-th (j at most 5) fail with errors
    other than the invalid-request condition before the deadline, and
    the [j]-th attempt gets a plan, the request returns that plan after
    exactly [j] network attempts. *)
Theorem FetchTestPlan_api_success_after_retries (ctxDone : nat -> bool)
    (responses : nat -> http_response) (j : nat) (p : TestPlan) :
  1 <= j <= 5 ->
  (forall k, 1 <= k < j -> exists e, tryFetchTestPlan (responses k) = Err e
                                     /\ errors_Is e ErrInvalidRequest = false) ->
  (forall k, 1 <= k < j -> ctxDone k = false) ->
  tryFetchTestPlan (responses j) = Ok p ->
  FetchTestPlan_api ctxDone responses = (Ok p, j).
Proof.
  intros Hj Hfail Hdone Hok. unfold FetchTestPlan_api.
  rewrite (FetchTestPlan_api_skip ctxDone responses j Hj Hfail Hdone).
  cbn [roko_loop]. replace (S (j - 1)) with j by lia.
  unfold fetch_callback. rewrite Hok. reflexivity.
Qed.

Lemma FetchTestPlan_api_success_after_retries_witness :
  FetchTestPlan_api (fun _ => false)
    (fun k => if Nat.ltb k 3 then Response 503 BodyUnparsable
              else Response 200 (BodyPlan (CreateFallbackPlan sample_files 2)))
  = (Ok (CreateFallbackPlan sample_files 2), 3).
Proof.
  apply FetchTestPlan_api_success_after_retries.
  - lia.
  - intros k Hk. destruct (Nat.ltb_spec k 3); [|lia].
    rewrite tryFetchTestPlan_5xx by lia. eexists. split; reflexivity.
  - intros k _. reflexivity.
  - reflexivity.
Defined.

(** When the first four attempts fail with errors other than the
    invalid-request condition before the deadline, and the fifth fails
    with an error [e5], the request makes 5 attempts and returns
    [ErrRetryLimitExceeded] wrapping [e5]. A 4xx response at the fifth
    attempt is therefore reported as both retry-limit-exceeded and
    invalid-request. *)
Theorem FetchTestPlan_api_limit_exceeded (ctxDone : nat -> bool)
    (responses : nat -> http_response) (e5 : error) :
  (forall k, 1 <= k < 5 -> exists e, tryFetchTestPlan (responses k) = Err e
                                     /\ errors_Is e ErrInvalidRequest = false) ->
  (forall k, 1 <= k < 5 -> ctxDone k = false) ->
  tryFetchTestPlan (responses 5) = Err e5 ->
  FetchTestPlan_api ctxDone responses = (Err (EWrap2 (ESentinel ErrRetryLimitExceeded) e5), 5)
  /\ (forall s b, responses 5 = Response s b -> (400 <= s < 500)%Z ->
      exists e, fst (FetchTestPlan_api ctxDone responses) = Err e
                /\ errors_Is e ErrRetryLimitExceeded = true
                /\ errors_Is e ErrInvalidRequest = true).
Proof.
  intros Hfail Hdone H5.
  assert (Hres : FetchTestPlan_api ctxDone responses
                 = (Err (EWrap2 (ESentinel ErrRetryLimitExceeded) e5), 5)).
  { unfold FetchTestPlan_api.
    rewrite (FetchTestPlan_api_skip ctxDone responses 5 ltac:(lia) Hfail Hdone).
    cbn [roko_loop]. change (S (5 - 1)) with 5.
    unfold fetch_callback. rewrite H5. simpl. rewrite orb_true_r. reflexivity. }
  split; [exact Hres|].
  intros s b Hr Hs. rewrite Hres. eexists. split; [reflexivity|].
  rewrite Hr, tryFetchTestPlan_4xx in H5 by exact Hs. injection H5 as <-.
  split; reflexivity.
Qed.

Lemma FetchTestPlan_api_limit_exceeded_witness :
  FetchTestPlan_api (fun _ => false)
    (fun k => if Nat.ltb k 5 then Response 503 BodyUnparsable else Response 404 BodyUnparsable)
  = (Err (EWrap2 (ESentinel ErrRetryLimitExceeded)
            (EWrap "server response" (ESentinel ErrInvalidRequest))), 5).
Proof.
  apply FetchTestPlan_api_limit_exceeded.
  - intros k Hk. destruct (Nat.ltb_spec k 5); [|lia].
    rewrite tryFetchTestPlan_5xx by lia. eexists. split; reflexivity.
  - intros k _. reflexivity.
  - reflexivity.
Defined.

(** When the attempts up to the [j]-th (j below 5) fail with errors
    other than the invalid-request condition and the deadline passes
    during the back-off after the [j]-th, the request returns the
    context's [DeadlineExceeded] error, not wrapped in
    [ErrRetryLimitExceeded], after [j] attempts. *)
Theorem FetchTestPlan_api_deadline (ctxDone : nat -> bool)
    (responses : nat -> http_response) (j : nat) :
  1 <= j < 5 ->
  (forall k, 1 <= k <= j -> exists e, tryFetchTestPlan (responses k) = Err e
                                      /\ errors_Is e ErrInvalidRequest = false) ->
  (forall k, 1 <= k < j -> ctxDone k = false) ->
  ctxDone j = true ->
  FetchTestPlan_api ctxDone responses = (Err (ESentinel DeadlineExceeded), j)
  /\ errors_Is (ESentinel DeadlineExceeded) ErrRetryLimitExceeded = false.
Proof.
  intros Hj Hfail Hdone Hd. split; [|reflexivity].
  unfold FetchTestPlan_api.
  rewrite (FetchTestPlan_api_skip ctxDone responses j ltac:(lia)
             ltac:(intros k Hk; apply Hfail; lia) Hdone).
  cbn [roko_loop]. replace (S (j - 1)) with j by lia.
  destruct (Hfail j) as (e & He & Hinv); [lia|].
  unfold fetch_callback. rewrite He. cbn zeta. rewrite Hinv.
  replace (Nat.leb retryMaxAttempts j) with false
    by (symmetry; apply Nat.leb_gt; unfold retryMaxAttempts; lia).
  rewrite Hd. cbn [orb r_res r_calls r_attempts].
  replace (Nat.eqb j retryMaxAttempts) with false
    by (symmetry; apply Nat.eqb_neq; unfold retryMaxAttempts; lia).
  reflexivity.
Qed.

Lemma FetchTestPlan_api_deadline_witness :
  FetchTestPlan_api (fun k => Nat.eqb k 2) (fun _ => ConnError)
  = (Err (ESentinel DeadlineExceeded), 2).
Proof.
  apply (proj1 (FetchTestPlan_api_deadline (fun k => Nat.eqb k 2) (fun _ => ConnError) 2
                  ltac:(lia) ltac:(intros k _; eexists; split; reflexivity)
                  ltac:(intros k Hk; apply Nat.eqb_neq; lia) eq_refl)).
Defined.

(* ------------------------------------------------------------------ *)
(** ** [createRequestParam] *)

Lemma filter_pairs_fst (thr : Z) (g : string -> Z) (files : list string) :
  map fst (filter (fun t => bool_decide (thr <= snd t)%Z) (map (fun f => (f, g f)) files))
  = filter (fun f => (thr <= g f)%Z) files.
Proof.
  induction files as [|f fs IH]; [done|]. simpl. rewrite !filter_cons. cbn [snd].
  repeat case_decide; simpl; rewrite ?IH; done.
Qed.

Lemma filter_pairs_rest (thr : Z) (g : string -> Z) (files : list string) :
  map (fun t => file_case (fst t))
    (filter (fun t => bool_decide (snd t < thr)%Z) (map (fun f => (f, g f)) files))
  = map file_case (filter (fun f => (g f < thr)%Z) files).
Proof.
  induction files as [|f fs IH]; [done|]. simpl. rewrite !filter_cons. cbn [snd].
  repeat case_decide; simpl; rewrite ?IH; done.
Qed.

Lemma filter_split_perm (P : string -> Prop) `{forall f, Decision (P f)} (files : list string) :
  Permutation files (filter P files ++ filter (fun f => ~ P f) files).
Proof.
  induction files as [|f fs IH]; [done|]. rewrite !filter_cons.
  case_decide; case_decide; try contradiction; simpl.
  - constructor. exact IH.
  - rewrite <- Permutation_middle. constructor. exact IH.
Qed.

Lemma map_Path_file_case (files : list string) : map Path (map file_case files) = files.
Proof. induction files as [|f fs IH]; simpl; [done|]. by rewrite IH. Qed.

Lemma createRequestParam_split_parts (cfg : Config) (files : list string)
    (client : Client) (getExamples : GetExamplesFn) (timings : gmap string Z)
    (params : TestPlanParams) :
  cfgSplitByExample cfg = true ->
  FetchFilesTiming client (cfgSuiteSlug cfg) files = Ok timings ->
  createRequestParam cfg files client getExamples = Ok params ->
  let dur f := default 0%Z (timings !! f) in
  let slow := filter (fun f => (cfgSlowFileThreshold cfg <= dur f)%Z) files in
  map Path (TestFiles params) = filter (fun f => (dur f < cfgSlowFileThreshold cfg)%Z) files
  /\ Permutation files (slow ++ map Path (TestFiles params))
  /\ (slow = [] -> TestExamples params = [])
  /\ (slow <> [] -> getExamples slow = Ok (TestExamples params))
  /\ Mode params = cfgMode cfg /\ Identifier params = cfgIdentifier cfg
  /\ Parallelism params = cfgParallelism cfg.
Proof.
  intros Hsplit Htim Hres. cbv zeta beta.
  unfold createRequestParam in Hres. rewrite Hsplit, Htim in Hres. simpl in Hres.
  rewrite filter_pairs_fst, filter_pairs_rest in Hres.
  set (thr := cfgSlowFileThreshold cfg) in *.
  set (slow := filter (fun f => (thr <= default 0%Z (timings !! f))%Z) files) in *.
  set (fast := filter (fun f => (default 0%Z (timings !! f) < thr)%Z) files) in *.
  assert (Hperm : Permutation files (slow ++ fast)).
  { assert (Hfast : fast = filter (fun f => ~ (thr <= default 0%Z (timings !! f))%Z) files)
      by (apply list_filter_iff; intros f; lia).
    rewrite Hfast. apply filter_split_perm. }
  clearbody slow fast.
  destruct slow as [|s ss].
  - injection Hres as <-. simpl. rewrite map_Path_file_case.
    repeat split; try done.
  - destruct (getExamples (s :: ss)) as [ex|e] eqn:Hex; [|discriminate].
    injection Hres as <-. simpl. rewrite map_Path_file_case.
    repeat split; try done.
Qed.

(** With splitting by example, the files are divided by their duration
    from the server, a file without a timing counting as 0: the files
    below the slow-file threshold are sent as files, in their order;
    the others, the slow files, are passed in their order to
    [GetExamples], whose examples are sent; with no slow file no
    example is sent, whatever [GetExamples] would return. Every file
    goes to exactly one side. *)
Theorem createRequestParam_split_by_example (cfg : Config) (files : list string)
    (client : Client) (getExamples : GetExamplesFn) (timings : gmap string Z)
    (params : TestPlanParams) :
  cfgSplitByExample cfg = true ->
  FetchFilesTiming client (cfgSuiteSlug cfg) files = Ok timings ->
  createRequestParam cfg files client getExamples = Ok params ->
  let dur f := default 0%Z (timings !! f) in
  let slow := filter (fun f => (cfgSlowFileThreshold cfg <= dur f)%Z) files in
  map Path (TestFiles params) = filter (fun f => (dur f < cfgSlowFileThreshold cfg)%Z) files
  /\ Permutation files (slow ++ map Path (TestFiles params))
  /\ (slow = [] -> TestExamples params = [])
  /\ (slow <> [] -> getExamples slow = Ok (TestExamples params))
  /\ Mode params = cfgMode cfg /\ Identifier params = cfgIdentifier cfg
  /\ Parallelism params = cfgParallelism cfg.
Proof. apply createRequestParam_split_parts. Qed.


Lemma createRequestParam_split_by_example_witness :
  cfgSplitByExample split_cfg = true
  /\ FetchFilesTiming (timing_client (Ok None) (Ok sentinel_plan) (Ok sample_timings))
       (cfgSuiteSlug split_cfg) sample_files = Ok sample_timings
  /\ createRequestParam split_cfg sample_files
       (timing_client (Ok None) (Ok sentinel_plan) (Ok sample_timings)) one_example_each
     = Ok {| Mode := "static"; Identifier := "build-1"; Parallelism := 2;
             TestFiles := [file_case "b c.spec"; file_case "d.spec"];
             TestExamples := [{| Path := "a.spec"; Name := "example 1" |}] |}
  /\ map Path [file_case "b c.spec"; file_case "d.spec"]
     = filter (fun f => (default 0%Z (sample_timings !! f) < 100)%Z) sample_files.
Proof.
  assert (H1 : cfgSplitByExample split_cfg = true) by reflexivity.
  assert (H2 : FetchFilesTiming (timing_client (Ok None) (Ok sentinel_plan) (Ok sample_timings))
       (cfgSuiteSlug split_cfg) sample_files = Ok sample_timings) by reflexivity.
  assert (H3 : createRequestParam split_cfg sample_files
       (timing_client (Ok None) (Ok sentinel_plan) (Ok sample_timings)) one_example_each
     = Ok {| Mode := "static"; Identifier := "build-1"; Parallelism := 2;
             TestFiles := [file_case "b c.spec"; file_case "d.spec"];
             TestExamples := [{| Path := "a.spec"; Name := "example 1" |}] |})
    by (vm_compute; reflexivity).
  split; [exact H1|]. split; [exact H2|]. split; [exact H3|].
  exact (proj1 (createRequestParam_split_by_example _ _ _ _ _ _ H1 H2 H3)).
Defined.

(** With splitting by example, a file for which the server returned no
    timing counts as lasting 0: it is sent as a file exactly when the
    slow-file threshold is positive, and is otherwise treated as slow. *)
Theorem createRequestParam_missing_timing (cfg : Config) (files : list string)
    (client : Client) (getExamples : GetExamplesFn) (timings : gmap string Z)
    (params : TestPlanParams) (f : string) :
  cfgSplitByExample cfg = true ->
  FetchFilesTiming client (cfgSuiteSlug cfg) files = Ok timings ->
  createRequestParam cfg files client getExamples = Ok params ->
  f ∈ files -> timings !! f = None ->
  (f ∈ map Path (TestFiles params) <-> (0 < cfgSlowFileThreshold cfg)%Z).
Proof.
  intros Hsplit Htim Hres Hin Hnone.
  destruct (createRequestParam_split_parts cfg files client getExamples timings params
              Hsplit Htim Hres) as [Hfast _].
  simpl in Hfast. rewrite Hfast, list_elem_of_filter, Hnone. simpl. tauto.
Qed.

Lemma createRequestParam_missing_timing_witness :
  "b c.spec" ∈ map Path [file_case "b c.spec"; file_case "d.spec"]
  <-> (0 < cfgSlowFileThreshold split_cfg)%Z.
Proof.
  apply (createRequestParam_missing_timing split_cfg sample_files
           (timing_client (Ok None) (Ok sentinel_plan) (Ok sample_timings)) one_example_each
           sample_timings
           {| Mode := "static"; Identifier := "build-1"; Parallelism := 2;
              TestFiles := [file_case "b c.spec"; file_case "d.spec"];
              TestExamples := [{| Path := "a.spec"; Name := "example 1" |}] |}).
  - reflexivity.
  - reflexivity.
  - vm_compute. reflexivity.
  - unfold sample_files. set_solver.
  - vm_compute. reflexivity.
Defined.

(* ------------------------------------------------------------------ *)
(** ** [fetchOrCreateTestPlan]: errors and kept plans *)

(** [fetchOrCreateTestPlan] returns an error only as it got it from one
    of its three steps (the cache fetch, building the request, the plan
    creation), never wrapped, and never an error that is the
    retry-timeout condition: those become the fallback plan. *)
Theorem fetchOrCreateTestPlan_error_origin (client : Client) (cfg : Config)
    (files : list string) (getExamples : GetExamplesFn) (e : error) :
  fetchOrCreateTestPlan client cfg files getExamples = Err e ->
  errors_Is e ErrRetryTimeout = false
  /\ (FetchTestPlan client (cfgSuiteSlug cfg) (cfgIdentifier cfg) = Err e
      \/ (FetchTestPlan client (cfgSuiteSlug cfg) (cfgIdentifier cfg) = Ok None
          /\ (createRequestParam cfg files client getExamples = Err e
              \/ exists params, createRequestParam cfg files client getExamples = Ok params
                  /\ CreateTestPlan client (cfgSuiteSlug cfg) params = Err e))).
Proof.
  unfold fetchOrCreateTestPlan. intros H.
  destruct (FetchTestPlan client (cfgSuiteSlug cfg) (cfgIdentifier cfg)) as [[cp|]|e0] eqn:Hf.
  - case_bool_decide; discriminate.
  - destruct (createRequestParam cfg files client getExamples) as [params|e1] eqn:Hp.
    + destruct (CreateTestPlan client (cfgSuiteSlug cfg) params) as [tp|e2] eqn:Hc.
      * case_bool_decide; discriminate.
      * destruct (errors_Is e2 ErrRetryTimeout) eqn:Ht; [discriminate|].
        injection H as <-. split; [exact Ht|]. right. split; [done|]. right. eauto.
    + destruct (errors_Is e1 ErrRetryTimeout) eqn:Ht; [discriminate|].
      injection H as <-. split; [exact Ht|]. right. split; [done|]. left. done.
  - destruct (errors_Is e0 ErrRetryTimeout) eqn:Ht; [discriminate|].
    injection H as <-. split; [exact Ht|]. left. done.
Qed.

Lemma fetchOrCreateTestPlan_error_origin_witness :
  fetchOrCreateTestPlan (const_client (Err (EText "401 Unauthorized")) (Ok sentinel_plan))
    sample_cfg sample_files no_examples = Err (EText "401 Unauthorized")
  /\ errors_Is (EText "401 Unauthorized") ErrRetryTimeout = false.
Proof.
  assert (H : fetchOrCreateTestPlan (const_client (Err (EText "401 Unauthorized")) (Ok sentinel_plan))
    sample_cfg sample_files no_examples = Err (EText "401 Unauthorized")) by reflexivity.
  split; [exact H|]. exact (proj1 (fetchOrCreateTestPlan_error_origin _ _ _ _ _ H)).
Defined.

(** With splitting by example and no cached plan, a failure to fetch the
    file timings, or of [GetExamples] on the slow files, is wrapped
    with a message that keeps [errors.Is]: when it is the retry-timeout
    condition the fallback plan of all the files is returned (no plan is
    created), and otherwise the wrapped error is returned. *)
Theorem fetchOrCreateTestPlan_request_errors (client : Client) (cfg : Config)
    (files : list string) (getExamples : GetExamplesFn) (e : error) :
  FetchTestPlan client (cfgSuiteSlug cfg) (cfgIdentifier cfg) = Ok None ->
  cfgSplitByExample cfg = true ->
  (FetchFilesTiming client (cfgSuiteSlug cfg) files = Err e ->
   fetchOrCreateTestPlan client cfg files getExamples
   = if errors_Is e ErrRetryTimeout then Ok (CreateFallbackPlan files (cfgParallelism cfg))
     else Err (EWrap "failed to fetch file timings" e))
  /\ (forall timings,
      FetchFilesTiming client (cfgSuiteSlug cfg) files = Ok timings ->
      let slow := filter (fun f => (cfgSlowFileThreshold cfg <= default 0%Z (timings !! f))%Z) files in
      slow <> [] -> getExamples slow = Err e ->
      fetchOrCreateTestPlan client cfg files getExamples
      = if errors_Is e ErrRetryTimeout then Ok (CreateFallbackPlan files (cfgParallelism cfg))
        else Err (EWrap "failed to get examples for slow files" e)).
Proof.
  intros Hf Hsplit. split.
  - intros Htim. unfold fetchOrCreateTestPlan, createRequestParam.
    rewrite Hf, Hsplit, Htim. reflexivity.
  - intros timings Htim slow Hne Hge.
    unfold fetchOrCreateTestPlan, createRequestParam.
    rewrite Hf, Hsplit, Htim. cbv zeta. cbn [negb]. rewrite filter_pairs_fst. fold slow.
    destruct slow as [|s ss]; [contradiction|]. rewrite Hge. reflexivity.
Qed.

Lemma fetchOrCreateTestPlan_request_errors_witness :
  fetchOrCreateTestPlan
    (timing_client (Ok None) (Ok sentinel_plan) (Err (ESentinel ErrRetryTimeout)))
    split_cfg sample_files one_example_each
  = Ok (CreateFallbackPlan sample_files 2).
Proof.
  refine (proj1 (fetchOrCreateTestPlan_request_errors
    (timing_client (Ok None) (Ok sentinel_plan) (Err (ESentinel ErrRetryTimeout)))
    split_cfg sample_files one_example_each (ESentinel ErrRetryTimeout) _ _) _);
  reflexivity.
Defined.

(** A non-empty plan, cached or just created, is returned unchanged. *)
Theorem fetchOrCreateTestPlan_nonempty_kept (client : Client) (cfg : Config)
    (files : list string) (getExamples : GetExamplesFn) (p : TestPlan) :
  size (Tasks p) <> 0 ->
  (FetchTestPlan client (cfgSuiteSlug cfg) (cfgIdentifier cfg) = Ok (Some p) ->
   fetchOrCreateTestPlan client cfg files getExamples = Ok p)
  /\ (forall params,
      FetchTestPlan client (cfgSuiteSlug cfg) (cfgIdentifier cfg) = Ok None ->
      createRequestParam cfg files client getExamples = Ok params ->
      CreateTestPlan client (cfgSuiteSlug cfg) params = Ok p ->
      fetchOrCreateTestPlan client cfg files getExamples = Ok p).
Proof.
  intros Hsz. split.
  - intros Hf. unfold fetchOrCreateTestPlan. rewrite Hf.
    rewrite bool_decide_false by exact Hsz. reflexivity.
  - intros params Hf Hp Hc. unfold fetchOrCreateTestPlan. rewrite Hf, Hp, Hc.
    rewrite bool_decide_false by exact Hsz. reflexivity.
Qed.

Lemma fetchOrCreateTestPlan_nonempty_kept_witness :
  fetchOrCreateTestPlan
    (const_client (Ok (Some (CreateFallbackPlan ["x.spec"] 1))) (Ok sentinel_plan))
    sample_cfg sample_files no_examples
  = Ok (CreateFallbackPlan ["x.spec"] 1).
Proof.
  refine (proj1 (fetchOrCreateTestPlan_nonempty_kept
    (const_client (Ok (Some (CreateFallbackPlan ["x.spec"] 1))) (Ok sentinel_plan))
    sample_cfg sample_files no_examples (CreateFallbackPlan ["x.spec"] 1) _) _).
  - vm_compute. discriminate.
  - reflexivity.
Defined.

(* ------------------------------------------------------------------ *)
(** ** The earlier [fetchOrCreateTestPlan] *)

(** In the earlier version a cached plan is returned as it is, even
    when its task mapping is empty; the latest version replaces an empty
    cached plan by the fallback plan of the files. *)
Theorem fetchOrCreateTestPlan_v1_cached_kept
    (createFallbackPlan : list TestCase -> Z -> TestPlan)
    (client : Client) (cfg : Config) (files : list string)
    (getExamples : GetExamplesFn) (p : TestPlan) :
  FetchTestPlan client (cfgSuiteSlug cfg) (cfgIdentifier cfg) = Ok (Some p) ->
  fetchOrCreateTestPlan_v1 createFallbackPlan client cfg files = Ok p
  /\ (size (Tasks p) = 0 ->
      fetchOrCreateTestPlan client cfg files getExamples
      = Ok (CreateFallbackPlan files (cfgParallelism cfg))).
Proof.
  intros Hf. split.
  - unfold fetchOrCreateTestPlan_v1. rewrite Hf. reflexivity.
  - intros Hsz. unfold fetchOrCreateTestPlan. rewrite Hf.
    rewrite bool_decide_true by exact Hsz. reflexivity.
Qed.

Lemma fetchOrCreateTestPlan_v1_cached_kept_witness :
  fetchOrCreateTestPlan_v1 (fun tcs n => CreateFallbackPlan (map Path tcs) n)
    (const_client (Ok (Some sentinel_plan)) (Ok sentinel_plan)) sample_cfg sample_files
  = Ok sentinel_plan
  /\ fetchOrCreateTestPlan (const_client (Ok (Some sentinel_plan)) (Ok sentinel_plan))
       sample_cfg sample_files no_examples
     = Ok (CreateFallbackPlan sample_files (cfgParallelism sample_cfg)).
Proof.
  destruct (fetchOrCreateTestPlan_v1_cached_kept (fun tcs n => CreateFallbackPlan (map Path tcs) n)
    (const_client (Ok (Some sentinel_plan)) (Ok sentinel_plan)) sample_cfg sample_files
    no_examples sentinel_plan eq_refl) as [H1 H2].
  split; [exact H1|]. apply H2. reflexivity.
Defined.

(** In the earlier version an error of the cache fetch is returned as it
    is, whatever it is (a deadline or retry timeout included); an error
    of the plan creation falls back to the fallback plan of the files
    exactly when it is the context-deadline condition, and is returned
    as it is otherwise. *)
Theorem fetchOrCreateTestPlan_v1_errors
    (createFallbackPlan : list TestCase -> Z -> TestPlan)
    (client : Client) (cfg : Config) (files : list string) (e : error) :
  (FetchTestPlan client (cfgSuiteSlug cfg) (cfgIdentifier cfg) = Err e ->
   fetchOrCreateTestPlan_v1 createFallbackPlan client cfg files = Err e)
  /\ (FetchTestPlan client (cfgSuiteSlug cfg) (cfgIdentifier cfg) = Ok None ->
      CreateTestPlan client (cfgSuiteSlug cfg)
        {| Mode := cfgMode cfg; Identifier := cfgIdentifier cfg;
           Parallelism := cfgParallelism cfg; TestFiles := map file_case files;
           TestExamples := [] |} = Err e ->
      fetchOrCreateTestPlan_v1 createFallbackPlan client cfg files
      = if errors_Is e DeadlineExceeded
        then Ok (createFallbackPlan (map file_case files) (cfgParallelism cfg))
        else Err e).
Proof.
  split.
  - intros Hf. unfold fetchOrCreateTestPlan_v1. rewrite Hf. reflexivity.
  - intros Hf Hc. unfold fetchOrCreateTestPlan_v1. rewrite Hf. cbv zeta. rewrite Hc.
    destruct (errors_Is e DeadlineExceeded); simpl; [|reflexivity].
    case_bool_decide; reflexivity.
Qed.

Lemma fetchOrCreateTestPlan_v1_errors_witness :
  fetchOrCreateTestPlan_v1 (fun tcs n => CreateFallbackPlan (map Path tcs) n)
    (const_client (Err (ESentinel DeadlineExceeded)) (Ok sentinel_plan)) sample_cfg sample_files
  = Err (ESentinel DeadlineExceeded)
  /\ fetchOrCreateTestPlan_v1 (fun tcs n => CreateFallbackPlan (map Path tcs) n)
    (const_client (Ok None) (Err (ESentinel DeadlineExceeded))) sample_cfg sample_files
  = Ok (CreateFallbackPlan (map Path (map file_case sample_files)) 2).
Proof.
  split.
  - apply (proj1 (fetchOrCreateTestPlan_v1_errors (fun tcs n => CreateFallbackPlan (map Path tcs) n)
      (const_client (Err (ESentinel DeadlineExceeded)) (Ok sentinel_plan)) sample_cfg sample_files
      (ESentinel DeadlineExceeded))). reflexivity.
  - rewrite (proj2 (fetchOrCreateTestPlan_v1_errors (fun tcs n => CreateFallbackPlan (map Path tcs) n)
      (const_client (Ok None) (Err (ESentinel DeadlineExceeded))) sample_cfg sample_files
      (ESentinel DeadlineExceeded)) eq_refl eq_refl). reflexivity.
Defined.

(* ------------------------------------------------------------------ *)
(** ** The retry loop and the supervisor: what a run sends and spawns *)

Lemma count_events_app (P : event -> bool) (l1 l2 : list event) :
  count_events P (l1 ++ l2) = count_events P l1 + count_events P l2.
Proof. induction l1 as [|ev l1 IH]; simpl; [done|]. rewrite IH. lia. Qed.

Lemma retry_marks_S (r : Z) (n : nat) :
  retry_marks r (S n)
  = [retry_label (r + 1) "_start"; retry_label (r + 1) "_end"] ++ retry_marks (r + 1) n.
Proof.
  unfold retry_marks. cbn [seq]. rewrite <- (seq_shift n 0). cbn [map concat].
  rewrite map_map. replace (r + Z.of_nat 0 + 1)%Z with (r + 1)%Z by lia. cbn [app].
  do 3 f_equal. apply map_ext. intros i.
  replace (r + Z.of_nat (S i) + 1)%Z with (r + 1 + Z.of_nat i + 1)%Z by lia. reflexivity.
Qed.

Lemma retryLoop_outcome (env : Env) (maxRetries : Z) (fuel : nat) :
  forall r tl tr,
  match retryLoop env maxRetries fuel r tl tr with
  | Running (_, tl') tr' =>
      exists n rest, n <= fuel /\ tl' = tl ++ retry_marks r n /\ tr' = tr ++ rest
        /\ count_events is_retry_command rest = n /\ count_events is_send_metadata rest = 0
  | Exited tr' =>
      exists rest, tr' = tr ++ rest ++ [EvExit 16]
        /\ count_events is_retry_command rest <= fuel
        /\ count_events is_send_metadata rest = 0
  end.
Proof.
  induction fuel as [|f IH]; intros r tl tr; cbn [retryLoop].
  { exists 0, []. rewrite !app_nil_r. repeat split; lia. }
  destruct (r <? maxRetries)%Z.
  2:{ exists 0, []. rewrite !app_nil_r. repeat split; lia. }
  unfold bindM, emit. cbv zeta.
  destruct (envRetryCommand env (r + 1)) as [rc|e].
  2:{ exists [EvPrint "Attempt %d of %d to retry failing tests"; EvRetryCommand;
              EvPrint "Couldn't process retry command: %v"].
      rewrite <- !app_assoc. repeat split; simpl; lia. }
  destruct (envRetryStart env (r + 1)); cbn [negb].
  2:{ exists [EvPrint "Attempt %d of %d to retry failing tests"; EvRetryCommand;
              EvPrint "Couldn't start tests: %v"].
      rewrite <- !app_assoc. repeat split; simpl; lia. }
  assert (Hone : forall c : Z,
    match ret (c, (tl ++ [retry_label (r + 1) "_start"]) ++ [retry_label (r + 1) "_end"])
            (((tr ++ [EvPrint "Attempt %d of %d to retry failing tests"]) ++ [EvRetryCommand])
             ++ [EvStart]) with
    | Running (_, tl') tr' =>
        exists n rest, n <= S f /\ tl' = tl ++ retry_marks r n /\ tr' = tr ++ rest
          /\ count_events is_retry_command rest = n /\ count_events is_send_metadata rest = 0
    | Exited tr' =>
        exists rest, tr' = tr ++ rest ++ [EvExit 16]
          /\ count_events is_retry_command rest <= S f
          /\ count_events is_send_metadata rest = 0
    end).
  { intros c. unfold ret.
    exists 1, [EvPrint "Attempt %d of %d to retry failing tests"; EvRetryCommand; EvStart].
    rewrite retry_marks_S. cbn [retry_marks seq map concat]. rewrite <- !app_assoc.
    repeat split; simpl; lia. }
  assert (Hrec :
    match retryLoop env maxRetries f (r + 1)
            ((tl ++ [retry_label (r + 1) "_start"]) ++ [retry_label (r + 1) "_end"])
            (((tr ++ [EvPrint "Attempt %d of %d to retry failing tests"]) ++ [EvRetryCommand])
             ++ [EvStart]) with
    | Running (_, tl') tr' =>
        exists n rest, n <= S f /\ tl' = tl ++ retry_marks r n /\ tr' = tr ++ rest
          /\ count_events is_retry_command rest = n /\ count_events is_send_metadata rest = 0
    | Exited tr' =>
        exists rest, tr' = tr ++ rest ++ [EvExit 16]
          /\ count_events is_retry_command rest <= S f
          /\ count_events is_send_metadata rest = 0
    end).
  { match goal with |- context [retryLoop env maxRetries f ?r' ?tl' ?tr'] =>
      specialize (IH r' tl' tr'); destruct (retryLoop env maxRetries f r' tl' tr') as [[c tl''] tr''|tr''] end.
    - destruct IH as (n & rest & Hn & Htl & Htr & Hrc & Hmd).
      exists (S n), ([EvPrint "Attempt %d of %d to retry failing tests"; EvRetryCommand; EvStart] ++ rest).
      rewrite retry_marks_S, Htl, Htr, !count_events_app, Hrc, Hmd. rewrite <- !app_assoc.
      repeat split; simpl; lia.
    - destruct IH as (rest & Htr & Hrc & Hmd).
      exists ([EvPrint "Attempt %d of %d to retry failing tests"; EvRetryCommand; EvStart] ++ rest).
      rewrite Htr, !count_events_app, Hmd. rewrite <- !app_assoc.
      repeat split; simpl; lia. }
  destruct (envRetryWait env (r + 1)) as [|code|].
  - apply Hone.
  - destruct (maxRetries <=? r + 1)%Z; [apply Hone|exact Hrec].
  - exact Hrec.
Qed.

Lemma superviseWait_outcome (env : Env) (cfg : Config) (tl : list string) (tr : list event) :
  exists rest, out_trace (superviseWait env cfg tl tr) = tr ++ rest
    /\ count_events is_send_metadata rest <= 1
    /\ count_events is_retry_command rest <= Z.to_nat (cfgMaxRetries cfg)
    /\ (count_events is_send_metadata rest = 0 -> exists pre, rest = pre ++ [EvExit 16]).
Proof.
  unfold superviseWait, sendMetadata, logErrorAndExit, os_Exit, bindM, emit.
  destruct (envWait env) as [|code|].
  - exists [EvSendMetadata (tl ++ ["test_end"]); EvExit 0%Z]. rewrite <- !app_assoc.
    repeat split; simpl; try lia.
  - destruct (cfgMaxRetries cfg =? 0)%Z.
    + exists [EvSendMetadata (tl ++ ["test_end"]); EvPrint "Rspec exited with error %v"; EvExit code].
      rewrite <- !app_assoc. repeat split; simpl; try lia.
    + unfold retryFailedTests.
      pose proof (retryLoop_outcome env (cfgMaxRetries cfg) (Z.to_nat (cfgMaxRetries cfg)) 0
                    (tl ++ ["test_end"]) tr) as Ho.
      destruct (retryLoop env (cfgMaxRetries cfg) (Z.to_nat (cfgMaxRetries cfg)) 0
                  (tl ++ ["test_end"]) tr) as [[c tl'] tr'|tr'].
      * destruct Ho as (n & rest & Hn & _ & -> & Hrc & Hmd).
        destruct (negb (c =? 0)%Z).
        -- exists (rest ++ [EvSendMetadata tl';
                            EvPrint "Rspec exited with error %v after retry failing tests"; EvExit c]).
           rewrite <- !app_assoc, !count_events_app, Hrc, Hmd.
           repeat split; simpl; try lia.
        -- exists (rest ++ [EvSendMetadata tl'; EvExit 0%Z]).
           rewrite <- !app_assoc, !count_events_app, Hrc, Hmd.
           repeat split; simpl; try lia.
      * destruct Ho as (rest & -> & Hrc & Hmd).
        exists (rest ++ [EvExit 16]). rewrite count_events_app, count_events_app, Hmd.
        repeat split; simpl; try lia. intros _. exists rest. reflexivity.
  - exists [EvPrint "Couldn't run tests: %v"; EvExit 16]. rewrite <- !app_assoc.
    repeat split; simpl; try lia. intros _. exists [EvPrint "Couldn't run tests: %v"]. reflexivity.
Qed.

(** The ways [main] goes: it stops early, having sent no metadata and
    run no retry command, with exit code 16; or it prints the version
    and exits 0; or it reaches the wait for the primary test process. *)
Lemma main_cases (env : Env) :
  (count_events is_send_metadata (run_main env) = 0
   /\ count_events is_retry_command (run_main env) = 0
   /\ last (run_main env) = Some (EvExit 16))
  \/ run_main env = [EvPrint (envVersion env); EvExit 0]
  \/ (exists cfg p, reaches_wait env cfg p).
Proof.
  unfold run_main, main, bindM, emit, ret, logErrorAndExit, os_Exit.
  destruct (envConfig env) as [cfg|e] eqn:Hc.
  2:{ left. split; [|split]; reflexivity. }
  destruct (envVersionFlag env) eqn:Hv; [right; left; reflexivity|].
  destruct (envFiles env) as [files|e] eqn:Hf.
  2:{ left. split; [|split]; reflexivity. }
  destruct (fetchOrCreateTestPlan (envClient env) cfg files (envGetExamples env)) as [p|e] eqn:Hp.
  2:{ left. split; [|split]; reflexivity. }
  destruct (envCommand env (node_tests p (cfgNodeIndex cfg))) as [c|e] eqn:Hcmd.
  2:{ left. split; [|split]; reflexivity. }
  destruct (envStart env) eqn:Hs.
  2:{ left. split; [|split]; reflexivity. }
  right; right. exists cfg, p. unfold reaches_wait. eauto 10.
Qed.

(** [main] sends the run's metadata at most once, and only in a run
    that got through configuration, file discovery, plan acquisition,
    command construction and start of the primary run. *)
Theorem main_metadata_at_most_once (env : Env) :
  count_events is_send_metadata (run_main env) <= 1
  /\ (0 < count_events is_send_metadata (run_main env) ->
      exists cfg p, reaches_wait env cfg p).
Proof.
  destruct (main_cases env) as [(Hmd & _ & _)|[Hv|(cfg & p & Hr)]].
  - rewrite Hmd. split; [lia|]. intros H. lia.
  - rewrite Hv. cbn [count_events is_send_metadata]. split; [lia|]. intros H. lia.
  - split; [|intros _; exists cfg, p; exact Hr].
    unfold run_main. rewrite (main_reaches_wait _ _ _ Hr).
    destruct (superviseWait_outcome env cfg ["test_start"]
                (primary_prefix (node_tests p (cfgNodeIndex cfg)))) as (rest & Ht & Hmd & _ & _).
    rewrite Ht, count_events_app. cbn [primary_prefix count_events is_send_metadata]. lia.
Qed.

(** A run of [main] asks the runner for a retry command at most
    [MaxRetries] times (never, when [MaxRetries] is not positive). *)
Theorem main_retry_commands_bounded (env : Env) (cfg : Config) :
  envConfig env = Ok cfg ->
  count_events is_retry_command (run_main env) <= Z.to_nat (cfgMaxRetries cfg).
Proof.
  intros Hc. destruct (main_cases env) as [(_ & Hrc & _)|[Hv|(cfg' & p & Hr)]].
  - rewrite Hrc. lia.
  - rewrite Hv. simpl. lia.
  - assert (cfg' = cfg) as ->.
    { destruct Hr as [Hc' _]. rewrite Hc in Hc'. injection Hc' as ->. reflexivity. }
    unfold run_main. rewrite (main_reaches_wait _ _ _ Hr).
    destruct (superviseWait_outcome env cfg ["test_start"]
                (primary_prefix (node_tests p (cfgNodeIndex cfg)))) as (rest & Ht & _ & Hrc & _).
    rewrite Ht, count_events_app. cbn [primary_prefix count_events is_retry_command]. lia.
Qed.

Lemma main_retry_commands_bounded_witness :
  envConfig (sample_env (Ok (sample_cfg_retries 2)) false (WaitExitError 1)
               ok_retry_command (fun _ => WaitExitError 1)) = Ok (sample_cfg_retries 2)
  /\ count_events is_retry_command
       (run_main (sample_env (Ok (sample_cfg_retries 2)) false (WaitExitError 1)
                    ok_retry_command (fun _ => WaitExitError 1))) <= 2.
Proof.
  split; [reflexivity|].
  apply (main_retry_commands_bounded _ (sample_cfg_retries 2)). reflexivity.
Defined.

(** When [retryFailedTests] returns, it has added to the timeline, for
    each retry [k = 1, ..., n] it made, [retry_k_start] then
    [retry_k_end], in order, with [n] at most [MaxRetries]; it asked for
    the retry command exactly [n] times and sent no metadata. *)
Theorem retryFailedTests_timeline (env : Env) (maxRetries : Z) (timeline : list string)
    (tr : list event) (code : Z) (timeline' : list string) (tr' : list event) :
  retryFailedTests env maxRetries timeline tr = Running (code, timeline') tr' ->
  exists n rest, n <= Z.to_nat maxRetries
    /\ timeline' = timeline ++ retry_marks 0 n
    /\ tr' = tr ++ rest
    /\ count_events is_retry_command rest = n
    /\ count_events is_send_metadata rest = 0.
Proof.
  intros H. pose proof (retryLoop_outcome env maxRetries (Z.to_nat maxRetries) 0 timeline tr) as Ho.
  unfold retryFailedTests in H. rewrite H in Ho. exact Ho.
Qed.

Lemma retryFailedTests_timeline_witness :
  retryFailedTests (sample_env (Ok (sample_cfg_retries 2)) false (WaitExitError 1)
                      ok_retry_command (fun k => if (k =? 1)%Z then WaitOtherError else WaitOk))
    2 ["test_start"; "test_end"] []
  = Running (0%Z, ["test_start"; "test_end"; "retry_1_start"; "retry_1_end";
                   "retry_2_start"; "retry_2_end"])
      [EvPrint "Attempt %d of %d to retry failing tests"; EvRetryCommand; EvStart;
       EvPrint "Attempt %d of %d to retry failing tests"; EvRetryCommand; EvStart]
  /\ exists n rest, n <= 2
    /\ ["test_start"; "test_end"; "retry_1_start"; "retry_1_end"; "retry_2_start"; "retry_2_end"]
       = ["test_start"; "test_end"] ++ retry_marks 0 n
    /\ [EvPrint "Attempt %d of %d to retry failing tests"; EvRetryCommand; EvStart;
        EvPrint "Attempt %d of %d to retry failing tests"; EvRetryCommand; EvStart] = [] ++ rest
    /\ count_events is_retry_command rest = n
    /\ count_events is_send_metadata rest = 0.
Proof.
  assert (H : retryFailedTests (sample_env (Ok (sample_cfg_retries 2)) false (WaitExitError 1)
                      ok_retry_command (fun k => if (k =? 1)%Z then WaitOtherError else WaitOk))
    2 ["test_start"; "test_end"] []
  = Running (0%Z, ["test_start"; "test_end"; "retry_1_start"; "retry_1_end";
                   "retry_2_start"; "retry_2_end"])
      [EvPrint "Attempt %d of %d to retry failing tests"; EvRetryCommand; EvStart;
       EvPrint "Attempt %d of %d to retry failing tests"; EvRetryCommand; EvStart])
    by (vm_compute; reflexivity).
  split; [exact H|]. exact (retryFailedTests_timeline _ _ _ _ _ _ _ H).
Defined.

(** With a negative [MaxRetries], a primary run that exits with an exit
    code is not retried: [main] sends the timeline and exits with code 1,
    whatever the primary exit code. *)
Theorem main_negative_max_retries (env : Env) (cfg : Config) (p : TestPlan) (code : Z) :
  reaches_wait env cfg p -> envWait env = WaitExitError code -> (cfgMaxRetries cfg < 0)%Z ->
  run_main env = primary_prefix (node_tests p (cfgNodeIndex cfg)) ++
    [EvSendMetadata ["test_start"; "test_end"];
     EvPrint "Rspec exited with error %v after retry failing tests"; EvExit 1].
Proof.
  intros Hreach Hw Hm. unfold run_main. rewrite (main_reaches_wait _ _ _ Hreach).
  unfold superviseWait. rewrite Hw.
  replace (cfgMaxRetries cfg =? 0)%Z with false by (symmetry; apply Z.eqb_neq; lia).
  unfold retryFailedTests. replace (Z.to_nat (cfgMaxRetries cfg)) with 0 by lia.
  reflexivity.
Qed.

Lemma main_negative_max_retries_witness :
  run_main (sample_env (Ok (sample_cfg_retries (-1))) false (WaitExitError 2)
              ok_retry_command (fun _ => WaitOk))
  = primary_prefix (node_tests (CreateFallbackPlan sample_files 2) 0) ++
    [EvSendMetadata ["test_start"; "test_end"];
     EvPrint "Rspec exited with error %v after retry failing tests"; EvExit 1].
Proof.
  apply (main_negative_max_retries _ (sample_cfg_retries (-1)) (CreateFallbackPlan sample_files 2) 2).
  - unfold reaches_wait. split; [reflexivity|]. split; [reflexivity|].
    split; [exists sample_files; split; [reflexivity|vm_compute; reflexivity]|].
    split; [eexists; reflexivity|reflexivity].
  - reflexivity.
  - simpl. lia.
Defined.

(** A primary test process whose wait fails with an error other than an
    exit status makes [main] exit 16 at once: no retry and no metadata. *)
Theorem main_primary_wait_error (env : Env) (cfg : Config) (p : TestPlan) :
  reaches_wait env cfg p -> envWait env = WaitOtherError ->
  run_main env = primary_prefix (node_tests p (cfgNodeIndex cfg)) ++
    [EvPrint "Couldn't run tests: %v"; EvExit 16].
Proof.
  intros Hreach Hw. unfold run_main. rewrite (main_reaches_wait _ _ _ Hreach).
  unfold superviseWait. rewrite Hw. reflexivity.
Qed.

Lemma main_primary_wait_error_witness :
  run_main (sample_env (Ok sample_cfg) false WaitOtherError ok_retry_command (fun _ => WaitOk))
  = primary_prefix (node_tests (CreateFallbackPlan sample_files 2) 0) ++
    [EvPrint "Couldn't run tests: %v"; EvExit 16].
Proof.
  apply (main_primary_wait_error _ sample_cfg (CreateFallbackPlan sample_files 2)).
  - unfold reaches_wait. split; [reflexivity|]. split; [reflexivity|].
    split; [exists sample_files; split; [reflexivity|vm_compute; reflexivity]|].
    split; [eexists; reflexivity|reflexivity].
  - reflexivity.
Defined.

Section RetryLastWaitError.
Variable env : Env.
Variable m : Z.
Hypothesis Hcmd : forall k, (0 < k <= m)%Z -> exists rc, envRetryCommand env k = Ok rc.
Hypothesis Hstart : forall k, (0 < k <= m)%Z -> envRetryStart env k = true.
Hypothesis Hfail : forall k, (0 < k < m)%Z -> envRetryWait env k <> WaitOk.
Hypothesis Hlast : envRetryWait env m = WaitOtherError.

Lemma retryLoop_last_wait_error (n : nat) :
  forall r tl tr, (0 <= r)%Z -> (r + Z.of_nat n = m)%Z -> 0 < n ->
  exists tr', retryLoop env m n r tl tr = Running (1%Z, tl ++ retry_marks r n) tr'.
Proof.
  induction n as [|n IH]; intros r tl tr Hr Hn Hpos; [lia|].
  cbn [retryLoop]. replace (r <? m)%Z with true by (symmetry; apply Z.ltb_lt; lia).
  destruct (Hcmd (r + 1)%Z) as [rc Hrc]; [lia|].
  unfold bindM, emit. rewrite Hrc, (Hstart (r + 1)%Z) by lia. cbn [negb]. cbv zeta.
  rewrite retry_marks_S.
  destruct (Z.eq_dec (r + 1)%Z m) as [Heq|Hne].
  - assert (n = 0) as -> by lia. rewrite Heq, Hlast. cbn [retryLoop ret retry_marks seq map concat].
    rewrite <- !app_assoc. eexists. reflexivity.
  - destruct (IH (r + 1)%Z ((tl ++ [retry_label (r + 1) "_start"]) ++ [retry_label (r + 1) "_end"])
                (((tr ++ [EvPrint "Attempt %d of %d to retry failing tests"]) ++ [EvRetryCommand])
                 ++ [EvStart])) as [tr' Htr']; [lia|lia|lia|].
    rewrite <- !app_assoc in Htr'. cbn [app] in Htr'.
    destruct (envRetryWait env (r + 1)%Z) eqn:Hw.
    + exfalso. apply (Hfail (r + 1)%Z); [lia|exact Hw].
    + replace (m <=? r + 1)%Z with false by (symmetry; apply Z.leb_gt; lia).
      rewrite <- !app_assoc. cbn [app]. eexists. exact Htr'.
    + rewrite <- !app_assoc. cbn [app]. eexists. exact Htr'.
Qed.
End RetryLastWaitError.

(** When the primary run and every retry fail, the last retry failing
    with an error other than an exit status, [main] sends the timeline of
    all the retries and exits with code 1. *)
Theorem main_last_retry_wait_error (env : Env) (cfg : Config) (p : TestPlan) (code : Z) :
  reaches_wait env cfg p -> envWait env = WaitExitError code -> (0 < cfgMaxRetries cfg)%Z ->
  (forall k, (0 < k <= cfgMaxRetries cfg)%Z -> exists rc, envRetryCommand env k = Ok rc) ->
  (forall k, (0 < k <= cfgMaxRetries cfg)%Z -> envRetryStart env k = true) ->
  (forall k, (0 < k < cfgMaxRetries cfg)%Z -> envRetryWait env k <> WaitOk) ->
  envRetryWait env (cfgMaxRetries cfg) = WaitOtherError ->
  exists pre, run_main env = pre ++
    [EvSendMetadata (["test_start"; "test_end"] ++ retry_marks 0 (Z.to_nat (cfgMaxRetries cfg)));
     EvPrint "Rspec exited with error %v after retry failing tests"; EvExit 1].
Proof.
  intros Hreach Hw Hm Hcmd Hstart Hfail Hlast. unfold run_main.
  rewrite (main_reaches_wait _ _ _ Hreach). unfold superviseWait. rewrite Hw.
  replace (cfgMaxRetries cfg =? 0)%Z with false by (symmetry; apply Z.eqb_neq; lia).
  unfold retryFailedTests.
  destruct (retryLoop_last_wait_error env (cfgMaxRetries cfg) Hcmd Hstart Hfail Hlast
              (Z.to_nat (cfgMaxRetries cfg)) 0 (["test_start"] ++ ["test_end"])
              (primary_prefix (node_tests p (cfgNodeIndex cfg)))) as [tr' Htr']; [lia|lia|lia|].
  unfold bindM at 1. rewrite Htr'. exists tr'.
  unfold sendMetadata, logErrorAndExit, os_Exit, bindM, emit. cbn [negb Z.eqb out_trace].
  rewrite <- !app_assoc. reflexivity.
Qed.

Lemma main_last_retry_wait_error_witness :
  exists pre, run_main (sample_env (Ok (sample_cfg_retries 2)) false (WaitExitError 1)
                ok_retry_command (fun k => if (k =? 1)%Z then WaitExitError 1 else WaitOtherError))
  = pre ++
    [EvSendMetadata (["test_start"; "test_end"] ++ retry_marks 0 (Z.to_nat 2));
     EvPrint "Rspec exited with error %v after retry failing tests"; EvExit 1].
Proof.
  apply (main_last_retry_wait_error _ (sample_cfg_retries 2) (CreateFallbackPlan sample_files 2) 1).
  - unfold reaches_wait. split; [reflexivity|]. split; [reflexivity|].
    split; [exists sample_files; split; [reflexivity|vm_compute; reflexivity]|].
    split; [eexists; reflexivity|reflexivity].
  - reflexivity.
  - simpl. lia.
  - intros k _. eexists. reflexivity.
  - intros k _. reflexivity.
  - simpl. intros k Hk. destruct (k =? 1)%Z; discriminate.
  - reflexivity.
Defined.
